(** * Adjacency list computation of the Urban Network Analysis toolbox

    A shallow embedding of [Adjacency_List_Computation.py]
    ([compute_adjacency_list]) and the properties of it that the
    specification states.

    The program is a script over the arcpy geoprocessing library: it reads
    and mutates the input point table, creates and deletes datasets under
    the output location, and drives an OD cost matrix layer of the network
    analysis engine.  The embedding keeps that shape: a [World] holding the
    point table, the datasets and a trace of the engine calls, threaded
    through a state-and-exception monad; the geoprocessing engine and the
    values of [Constants.py] are parameters. *)

From Stdlib Require Import ZArith QArith Qcanon Qround Lia Lqa.
From stdpp Require Import base option list numbers strings countable gmap fin_maps.

Open Scope Z_scope.

(** ** Python 2 numbers

    The script runs under Python 2 (ArcGIS 10): [/] between two [int]s is
    floor division and true division as soon as one operand is a [float].
    Floats are idealised as exact rationals in canonical form, so that
    Leibniz equality is numeric equality. *)

Module Py.

Inductive Num := PyInt (z : Z) | PyFloat (q : Qc).

#[global] Instance Num_eq_dec : EqDecision Num.
Proof. solve_decision. Defined.

Definition to_Qc (a : Num) : Qc :=
  match a with
  | PyInt z => Qc_of_Z z
  | PyFloat q => q
  end.


(** [a + b], [a - b], [a * b]: integer arithmetic on two ints, float
    arithmetic otherwise. *)
Definition add (a b : Num) : Num :=
  match a, b with
  | PyInt x, PyInt y => PyInt (x + y)
  | _, _ => PyFloat (to_Qc a + to_Qc b)
  end.

Definition sub (a b : Num) : Num :=
  match a, b with
  | PyInt x, PyInt y => PyInt (x - y)
  | _, _ => PyFloat (to_Qc a - to_Qc b)
  end.

Definition mul (a b : Num) : Num :=
  match a, b with
  | PyInt x, PyInt y => PyInt (x * y)
  | _, _ => PyFloat (to_Qc a * to_Qc b)
  end.

(** [a / b] for a non-zero [b]: [Z.div] rounds towards minus infinity, as
    Python's integer division does.  The one call site whose divisor can
    be zero raises [ZeroDivisionError] before dividing. *)
Definition div (a b : Num) : Num :=
  match a, b with
  | PyInt x, PyInt y => PyInt (x / y)
  | _, _ => PyFloat (to_Qc a / to_Qc b)
  end.

Definition ltb (a b : Num) : bool := bool_decide (to_Qc a < to_Qc b)%Qc.

(** [min(a, b)] and [max(a, b)] return the first of two equal arguments. *)
Definition min (a b : Num) : Num := if ltb b a then b else a.
Definition max (a b : Num) : Num := if ltb a b then b else a.

(** [int(x)], also what the [%d] conversion prints: truncation towards
    zero. *)
Definition int (a : Num) : Z :=
  match a with
  | PyInt z => z
  | PyFloat q => if bool_decide (0 <= q)%Qc then Qfloor q else Qceiling q
  end.

(** [int(sqrt(x))] for [x >= 0]: the integer part of the real square
    root, which is the integer square root of the integer part of [x]. *)
Definition int_sqrt (a : Num) : Z := Z.sqrt (Qfloor (to_Qc a)).


End Py.

Abbreviation PyInt := Py.PyInt.
Abbreviation PyFloat := Py.PyFloat.

(** ** Tables

    A row of a table or feature class maps field names to values;
    [getValue] and [setValue] are lookup and insert. *)

Inductive Value := VNum (n : Py.Num) | VText (s : string).

#[global] Instance Value_eq_dec : EqDecision Value.
Proof. solve_decision. Defined.

Abbreviation Row := (gmap string Value).
Abbreviation Table := (list (gmap string Value)).

#[global] Instance Num_countable : Countable Py.Num :=
  inj_countable'
    (λ a, match a with PyInt z => inl z | PyFloat q => inr q end)
    (λ s, match s with inl z => PyInt z | inr q => PyFloat q end)
    (λ a, match a with PyInt _ | PyFloat _ => eq_refl end).

#[global] Instance Value_countable : Countable Value :=
  inj_countable'
    (λ v, match v with VNum n => inl n | VText s => inr s end)
    (λ s, match s with inl n => VNum n | inr s => VText s end)
    (λ v, match v with VNum _ | VText _ => eq_refl end).

(** A value written to a field of type DOUBLE is stored as a float. *)
Definition double (a : Py.Num) : Value := VNum (PyFloat (Py.to_Qc a)).

(** ** What the script takes from outside

    [Constants] are the names of [Constants.py] and the helper [trim] of
    [Utils.py] that the script uses; their values are not part of the
    sources, so every result below holds for all of them. *)

Record Constants := {
  AUXILIARY_DIR_NAME : string;
  EDGE_FEATURE : string;
  JUNCTION_FEATURE : list string;
  NETWORK_LOCATION_FIELDS : list string;
  BARRIER_COST_FIELD : string;
  BARRIER_COST : Py.Num;
  POINTS_PER_RASTER_CELL : Py.Num;
  OD_COST_MATRIX_LAYER_NAME : string;
  OD_COST_MATRIX_LINES : string;
  PARTIAL_ADJACENCY_LIST_NAME : string;
  POLYGONS_SHAPEFILE_NAME : string;
  RASTER_NAME : string;
  POLYGONS_LAYER_NAME : string;
  INPUT_POINTS_LAYER_NAME : string;
  ORIGIN_ID_FIELD_NAME : string;
  DESTINATION_ID_FIELD_NAME : string;
  trim : string → string
}.

(** A source of a network dataset, as [arcpy.Describe(network).sources]
    lists it. *)
Record Source := { sourceType : string; name : string }.

Inductive SubLayer := Origins | Destinations | Point_Barriers.

(** A network location loaded into a sub-layer: the feature it was loaded
    from and the properties the field mappings gave it. *)
Record Location := { feature : gmap string Value; properties : gmap string Value }.

(** The OD cost matrix layer: its analysis settings and its three input
    sub-layers.  The [Lines] sub-layer is a table of its own. *)
Record ODLayer := {
  network : string;
  impedance : string;
  default_cutoff : Py.Num;
  accumulators : list string;
  origins : list Location;
  destinations : list Location;
  barriers : list Location
}.

#[global] Instance SubLayer_eq_dec : EqDecision SubLayer.
Proof. solve_decision. Defined.
#[global] Instance Location_eq_dec : EqDecision Location.
Proof. solve_decision. Defined.
#[global] Instance ODLayer_eq_dec : EqDecision ODLayer.
Proof. solve_decision. Defined.

(** The geoprocessing engine and the operating system, as far as the
    script depends on what they compute. *)
Record Engine := {
  (** [os.path.join] *)
  join : string → string → string;
  (** [arcpy.Describe(network).sources] *)
  sources : string → list Source;
  (** the point table after [CalculateLocations_na] on a network *)
  located : string → Table → Table;
  (** width and height of [arcpy.Describe(points).Extent] *)
  extent : Table → Py.Num * Py.Num;
  (** the cells of the raster that [PointToRaster_conversion] makes of
      the points for a value field and a cell size, as the polygons that
      [RasterToPolygon_conversion] turns them into *)
  tiles : Table → string → Z → Table;
  (** whether a point feature lies within a search distance of a polygon
      ([None]: intersects it) *)
  within : gmap string Value → option Py.Num → gmap string Value → bool;
  (** the [Lines] that [Solve_na] produces, [None] when the solve fails *)
  solve : ODLayer → option Table
}.

(** ** The world the script runs in *)

Inductive Message :=
  | WARNING_NO_EDGE_FEATURE (network : string)
  | WARNING_NO_JUNCTION_FEATURE (network : string)
  | CALCULATE_LOCATIONS_STARTED
  | CALCULATE_LOCATIONS_FINISHED
  | BARRIER_COST_COMPUTATION_STARTED
  | BARRIER_COST_COMPUTATION_FINISHED.

(** The calls made to arcpy and to the operating system, with the
    arguments that the properties below speak about. *)
Module Call.

Inductive Event :=
  | AddMessage (m : Message)
  | AddWarning (m : Message)
  | mkdir (dir : string)
  | CalculateLocations_na (in_network_dataset : string)
  | AddField_management (field_name : string)
  | Delete_management (file : string)
  | MakeODCostMatrixLayer_na (default_cutoff : Py.Num)
  | PointToRaster_conversion (cellsize : Z)
  | RasterToPolygon_conversion
  | TableToTable_conversion (in_rows out : string)
  | MakeFeatureLayer_management (out_layer : string)
  | SelectLayerByAttribute_management (fid : option Value)
  | SelectLayerByLocation_management (search_distance : option Py.Num)
  | AddLocations_na (sub_layer : SubLayer) (locations : list Location)
  | Solve_na (layer : ODLayer)
  | CalculateField_management (field : string)
  | Append_management (inputs target : string)
  | Rename_management (in_data out_data : string).

#[global] Instance Message_eq_dec : EqDecision Message.
Proof. solve_decision. Defined.
#[global] Instance Event_eq_dec : EqDecision Event.
Proof. solve_decision. Defined.

End Call.

(** [points] are the rows of [input_points]; [files] are the datasets
    that [arcpy.Exists] finds, each with its rows (a directory has none, a
    raster is held as the polygons of its cells, a feature layer as the
    rows of its current selection); [od] is the OD cost matrix layer;
    [trace] lists the calls made so far, the latest first. *)
Record World := {
  points : Table;
  files : gmap string Table;
  od : ODLayer;
  trace : list Call.Event
}.

Definition set_points (rows : Table) (w : World) : World :=
  {| points := rows; files := files w; od := od w; trace := trace w |}.
Definition set_files (fs : gmap string Table) (w : World) : World :=
  {| points := points w; files := fs; od := od w; trace := trace w |}.
Definition set_od (l : ODLayer) (w : World) : World :=
  {| points := points w; files := files w; od := l; trace := trace w |}.
Definition set_trace (t : list Call.Event) (w : World) : World :=
  {| points := points w; files := files w; od := od w; trace := t |}.

Inductive Exn :=
  | Invalid_Input_Exception (network : string)
  | ZeroDivisionError
  | RuntimeError
  | IndexError
  | ExecuteError.

Inductive Result (A : Type) := Ok (a : A) | Raise (e : Exn).
Arguments Ok {A} a.
Arguments Raise {A} e.

#[global] Instance Exn_eq_dec : EqDecision Exn.
Proof. solve_decision. Defined.
#[global] Instance Result_eq_dec {A} `{EqDecision A} : EqDecision (Result A).
Proof. solve_decision. Defined.

(** A computation reads and changes the world and returns or raises; the
    world at the point of a raise is kept. *)
Definition M (A : Type) : Type := World → Result A * World.

Definition ret {A} (a : A) : M A := λ w, (Ok a, w).
Definition bind {A B} (m : M A) (k : A → M B) : M B :=
  λ w, match m w with
       | (Ok a, w') => k a w'
       | (Raise e, w') => (Raise e, w')
       end.
Definition raise {A} (e : Exn) : M A := λ w, (Raise e, w).
Definition get : M World := λ w, (Ok w, w).
Definition modify (f : World → World) : M unit := λ w, (Ok tt, f w).
Definition call (e : Call.Event) : M unit := λ w, (Ok tt, set_trace (e :: trace w) w).
(** A partial result of a pure computation, raising when there is none. *)
Definition try {A} (o : option A) (e : Exn) : M A :=
  match o with Some a => ret a | None => raise e end.

Declare Scope py_scope.
Delimit Scope py_scope with py.
Notation "'let*' x ':=' m 'in' k" := (bind m (λ x, k))
  (at level 10, x name, m at level 100, k at level 200) : py_scope.
Notation "m ';;' k" := (bind m (λ _, k))
  (at level 100, k at level 200, right associativity) : py_scope.
Open Scope py_scope.

(** [for x in l: body(x)] *)
Fixpoint for_each {A} (l : list A) (body : A → M unit) : M unit :=
  match l with
  | [] => ret tt
  | x :: l => body x ;; for_each l body
  end.

Definition when (b : bool) (m : M unit) : M unit := if b then m else ret tt.

(** ** The arcpy tools the script calls

    A feature layer is modelled by its selection, so the selection tools
    are passed the features the layer was made from. *)

Module arcpy.
Section Tools.
Context (E : Engine).

Definition Exists (file : string) : M bool :=
  let* w := get in ret (bool_decide (is_Some (files w !! file))).

(** The rows of a dataset; the tool fails when there is no such dataset. *)
Definition rows_of (file : string) : M Table :=
  let* w := get in try (files w !! file) ExecuteError.

Definition write (file : string) (rows : Table) : M unit :=
  modify (λ w, set_files (<[file := rows]> (files w)) w).

Definition Delete_management (file : string) : M unit :=
  call (Call.Delete_management file) ;;
  modify (λ w, set_files (delete file (files w)) w).

Definition CalculateLocations_na (in_network_dataset : string) : M unit :=
  call (Call.CalculateLocations_na in_network_dataset) ;;
  modify (λ w, set_points (located E in_network_dataset (points w)) w).

(** A new DOUBLE field of the input points holds 0 in every row. *)
Definition AddField_management (field_name : string) : M unit :=
  call (Call.AddField_management field_name) ;;
  modify (λ w, set_points (insert field_name (double (PyInt 0)) <$> points w) w).

Definition MakeODCostMatrixLayer_na (in_network_dataset out_layer lines : string)
    (impedance_attribute : string) (default_cutoff : Py.Num)
    (accumulate_attribute_name : list string) : M unit :=
  call (Call.MakeODCostMatrixLayer_na default_cutoff) ;;
  modify (set_od {| network := in_network_dataset;
                    impedance := impedance_attribute;
                    default_cutoff := default_cutoff;
                    accumulators := accumulate_attribute_name;
                    origins := []; destinations := []; barriers := [] |}) ;;
  write out_layer [] ;;
  write lines [].

Definition PointToRaster_conversion (value_field out_rasterdataset : string)
    (cellsize : Z) : M unit :=
  call (Call.PointToRaster_conversion cellsize) ;;
  let* w := get in
  write out_rasterdataset (tiles E (points w) value_field cellsize).

Definition RasterToPolygon_conversion (in_raster out_polygon_features : string) : M unit :=
  call Call.RasterToPolygon_conversion ;;
  let* cells := rows_of in_raster in
  write out_polygon_features cells.

Definition TableToTable_conversion (in_rows out : string) : M unit :=
  call (Call.TableToTable_conversion in_rows out) ;;
  let* rows := rows_of in_rows in
  write out rows.

Definition MakeFeatureLayer_management (in_features : Table) (out_layer : string) : M unit :=
  call (Call.MakeFeatureLayer_management out_layer) ;;
  write out_layer in_features.

(** NEW_SELECTION with the clause [FID = fid]. *)
Definition SelectLayerByAttribute_management (in_layer : string) (features : Table)
    (fid : Value) : M unit :=
  call (Call.SelectLayerByAttribute_management (Some fid)) ;;
  write in_layer (filter (λ r, r !! "FID"%string = Some fid) features).

(** NEW_SELECTION of the features within the search distance of a
    selected feature of [select_features]. *)
Definition SelectLayerByLocation_management (in_layer : string) (features : Table)
    (select_features : string) (search_distance : option Py.Num) : M unit :=
  call (Call.SelectLayerByLocation_management search_distance) ;;
  let* selected := rows_of select_features in
  write in_layer
    (filter (λ p, existsb (λ poly, within E poly search_distance p) selected = true)
            features).

Definition set_sub_layer (sub_layer : SubLayer) (locations : list Location)
    (l : ODLayer) : ODLayer :=
  {| network := network l; impedance := impedance l;
     default_cutoff := default_cutoff l; accumulators := accumulators l;
     origins := match sub_layer with Origins => locations | _ => origins l end;
     destinations := match sub_layer with Destinations => locations | _ => destinations l end;
     barriers := match sub_layer with Point_Barriers => locations | _ => barriers l end |}.

(** [append="CLEAR"]: the selected rows of [in_table] replace what the
    sub-layer held; [field_mappings] gives the properties of a location
    from its row. *)
Definition AddLocations_na (sub_layer : SubLayer) (in_table : string)
    (field_mappings : gmap string Value → gmap string Value) : M unit :=
  let* rows := rows_of in_table in
  let locations := (λ r, {| feature := r; properties := field_mappings r |}) <$> rows in
  call (Call.AddLocations_na sub_layer locations) ;;
  modify (λ w, set_od (set_sub_layer sub_layer locations (od w)) w).

Definition Solve_na (lines : string) : M unit :=
  let* w := get in
  call (Call.Solve_na (od w)) ;;
  let* result := try (solve E (od w)) ExecuteError in
  write lines result.

(** The expression is evaluated on every row; the tool fails when it
    raises on one. *)
Definition CalculateField_management (in_table field : string)
    (expression : gmap string Value → option Value) : M unit :=
  call (Call.CalculateField_management field) ;;
  let* rows := rows_of in_table in
  let* rows' := try (mapM (λ r, v ← expression r; Some (<[field := v]> r)) rows)
                    ExecuteError in
  write in_table rows'.

Definition Append_management (inputs target : string) : M unit :=
  call (Call.Append_management inputs target) ;;
  let* new := rows_of inputs in
  let* old := rows_of target in
  write target (old ++ new).

Definition Rename_management (in_data out_data : string) : M unit :=
  call (Call.Rename_management in_data out_data) ;;
  let* rows := rows_of in_data in
  modify (λ w, set_files (<[out_data := rows]> (delete in_data (files w))) w).

Definition AddMessage (m : Message) : M unit := call (Call.AddMessage m).
Definition AddWarning (m : Message) : M unit := call (Call.AddWarning m).

End Tools.
End arcpy.

Definition mkdir (dir : string) : M unit :=
  call (Call.mkdir dir) ;; arcpy.write dir [].

(** ** String helpers of the script *)

(** [s.split(sep)] for a non-empty separator: [skip] counts the characters
    of a separator just matched that are still to be passed over, [piece]
    is the part read since the last separator. *)
Fixpoint split_from (sep : string) (skip : nat) (piece : string) (s : string) : list string :=
  match s with
  | EmptyString => [piece]
  | String c s' =>
      match skip with
      | S n => split_from sep n piece s'
      | O => if String.prefix sep s
             then piece :: split_from sep (String.length sep - 1) "" s'
             else split_from sep 0 (piece +:+ String c "") s'
      end
  end.

Definition split (sep s : string) : list string := split_from sep 0 "" s.

(** [s[:-4]] *)
Definition drop_last4 (s : string) : string :=
  String.substring 0 (String.length s - 4) s.

(** ** The script *)

Record Args := {
  input_network : string;
  id_attribute : string;
  impedance_attribute : string;
  accumulator_attributes : list string;
  search_radius : Py.Num;
  max_neighbor_separation : Py.Num;
  output_location : string;
  adj_dbf_name : string
}.

Section Script.
Context (K : Constants) (E : Engine).

(** Modelled from the spec: [row_has_field] of [Utils.py] is not among the
    sources.  Section 7 has the script detect whether the points already
    carry a field; a cursor over an empty table yields no row, which
    carries none. *)
Definition row_has_field (row : option (gmap string Value)) (field : string) : bool :=
  match row with
  | Some r => bool_decide (is_Some (r !! field))
  | None => false
  end.

(** Lines 46-53: the last edge source and the last junction source. *)
Definition record_sources (srcs : list Source) : option string * option string :=
  foldl (λ '(edge_feature, junction_feature) source,
           if bool_decide (sourceType source = EDGE_FEATURE K)
           then (Some (name source), junction_feature)
           else if bool_decide (sourceType source ∈ JUNCTION_FEATURE K)
           then (edge_feature, Some (name source))
           else (edge_feature, junction_feature))
        (None, None) srcs.

(** Line 86: [get_xy]; [getValue] raises on a field the row lacks. *)
Definition get_xy (row : gmap string Value) : option (Value * Value) :=
  x ← row !! trim K "SnapX"; y ← row !! trim K "SnapY"; Some (x, y).

(** Lines 90-96: the frequencies of the (SnapX, SnapY) values. *)
Fixpoint count_xy (rows : Table) (xy_count : gmap (Value * Value) Z)
    : option (gmap (Value * Value) Z) :=
  match rows with
  | [] => Some xy_count
  | row :: rows =>
      snap_xy ← get_xy row;
      count_xy rows
        (match xy_count !! snap_xy with
         | Some n => <[snap_xy := n + 1]> xy_count
         | None => <[snap_xy := 1]> xy_count
         end)
  end.

(** Lines 101-104: the barrier cost of a row, written to its DOUBLE
    field. *)
Definition set_barrier_cost (xy_count : gmap (Value * Value) Z)
    (row : gmap string Value) : option (gmap string Value) :=
  snap_xy ← get_xy row;
  n ← xy_count !! snap_xy;
  let barrier_cost := Py.div (BARRIER_COST K) (PyInt n) in
  Some (<[trim K (BARRIER_COST_FIELD K) := double barrier_cost]> row).

(** Lines 83-105 on the rows of the input points (after [AddField]). *)
Definition barrier_costs (rows : Table) : option Table :=
  xy_count ← count_xy rows ∅;
  mapM (set_barrier_cost xy_count) rows.

(** Line 134. *)
Definition cutoff_radius (search_radius : Py.Num) : Py.Num :=
  Py.add (Py.mul (PyInt 2) (BARRIER_COST K))
         (Py.min search_radius (Py.div (BARRIER_COST K) (PyInt 2))).

(** Lines 148-150. *)
Definition raster_cell_count (input_point_count : Z) : Py.Num :=
  Py.max (PyInt 1) (Py.div (PyInt input_point_count) (POINTS_PER_RASTER_CELL K)).

Definition raster_cell_area (width height : Py.Num) (input_point_count : Z) : Py.Num :=
  Py.div (Py.mul width height) (raster_cell_count input_point_count).

Definition raster_cell_size (width height : Py.Num) (input_point_count : Z) : Z :=
  Py.int_sqrt (raster_cell_area width height input_point_count).

(** Line 194: a property takes the value of a field of the row, when the
    row has the field. *)
Definition map_field (property field : string) (row props : gmap string Value)
    : gmap string Value :=
  match row !! field with
  | Some v => <[property := v]> props
  | None => props
  end.

Definition name_and_curb (id_attribute : string) (row : gmap string Value)
    : gmap string Value :=
  map_field "Name" id_attribute row (<["CurbApproach" := VNum (PyInt 0)]> ∅).

(** Lines 213-215: the field mappings of a point barrier. *)
Definition barrier_mappings (id_attribute impedance_attribute : string)
    (row : gmap string Value) : gmap string Value :=
  map_field ("Attr_" +:+ impedance_attribute) (trim K (BARRIER_COST_FIELD K)) row
    (<["BarrierType" := VNum (PyInt 2)]>
       (<["FullEdge" := VNum (PyInt 0)]> (name_and_curb id_attribute row))).

(** Line 226: [!Name!.split(' - ')[index]]. *)
Definition name_part (index : nat) (row : gmap string Value) : option Value :=
  match row !! "Name"%string with
  | Some (VText n) => VText <$> (split " - " n !! index)
  | _ => None
  end.

(** Line 233: [!distance_field! - 2 * %d], the constant printed by [%d];
    the result goes to a DOUBLE field. *)
Definition corrected_distance (distance_field : string) (row : gmap string Value)
    : option Value :=
  match row !! distance_field with
  | Some (VNum raw) =>
      Some (double (Py.sub raw (Py.mul (PyInt 2) (PyInt (Py.int (BARRIER_COST K))))))
  | _ => None
  end.

Context (a : Args).

(** Lines 42 and 109-118: the files of the run. *)
Definition auxiliary_dir : string := join E (output_location a) (AUXILIARY_DIR_NAME K).
Definition od_cost_matrix_layer : string := join E auxiliary_dir (OD_COST_MATRIX_LAYER_NAME K).
Definition od_cost_matrix_lines : string := join E od_cost_matrix_layer (OD_COST_MATRIX_LINES K).
Definition temp_adj_dbf_name : string := drop_last4 (adj_dbf_name a) +:+ "~.dbf".
Definition temp_adj_dbf : string := join E (output_location a) temp_adj_dbf_name.
Definition adj_dbf : string := join E (output_location a) (adj_dbf_name a).
Definition partial_adj_dbf : string := join E auxiliary_dir (PARTIAL_ADJACENCY_LIST_NAME K).
Definition polygons : string := join E auxiliary_dir (POLYGONS_SHAPEFILE_NAME K).
Definition raster : string := join E auxiliary_dir (RASTER_NAME K).
Definition polygons_layer : string := join E auxiliary_dir (POLYGONS_LAYER_NAME K).
Definition input_points_layer : string := join E auxiliary_dir (INPUT_POINTS_LAYER_NAME K).

Definition distance_field : string := trim K ("Total_" +:+ impedance_attribute a).

(** Lines 41-44. *)
Definition make_auxiliary_dir : M unit :=
  let* found := arcpy.Exists auxiliary_dir in
  when (negb found) (mkdir auxiliary_dir).

(** Lines 46-59. *)
Definition check_network : M unit :=
  let '(edge_feature, junction_feature) := record_sources (sources E (input_network a)) in
  match edge_feature with
  | None =>
      arcpy.AddWarning (WARNING_NO_EDGE_FEATURE (input_network a)) ;;
      raise (Invalid_Input_Exception (input_network a))
  | Some _ =>
      match junction_feature with
      | None =>
          arcpy.AddWarning (WARNING_NO_JUNCTION_FEATURE (input_network a)) ;;
          raise (Invalid_Input_Exception (input_network a))
      | Some _ => ret tt
      end
  end.

(** Lines 61-71. *)
Definition calculate_locations (test_input_point : option (gmap string Value)) : M unit :=
  let locations_calculated :=
    forallb (row_has_field test_input_point) (NETWORK_LOCATION_FIELDS K) in
  when (negb locations_calculated)
    (arcpy.AddMessage CALCULATE_LOCATIONS_STARTED ;;
     arcpy.CalculateLocations_na E (input_network a) ;;
     arcpy.AddMessage CALCULATE_LOCATIONS_FINISHED).

(** Lines 73-106. *)
Definition calculate_barrier_costs (test_input_point : option (gmap string Value)) : M unit :=
  let barrier_costs_calculated :=
    row_has_field test_input_point (trim K (BARRIER_COST_FIELD K)) in
  when (negb barrier_costs_calculated)
    (arcpy.AddMessage BARRIER_COST_COMPUTATION_STARTED ;;
     arcpy.AddField_management (trim K (BARRIER_COST_FIELD K)) ;;
     let* w := get in
     let* rows := try (barrier_costs (points w)) RuntimeError in
     modify (set_points rows) ;;
     arcpy.AddMessage BARRIER_COST_COMPUTATION_FINISHED).

Definition delete_if_exists (file : string) : M unit :=
  let* found := arcpy.Exists file in
  when found (arcpy.Delete_management file).

(** Lines 120-131. *)
Definition remove_old_files : M unit :=
  for_each [od_cost_matrix_layer; temp_adj_dbf; adj_dbf; partial_adj_dbf; polygons;
            raster; polygons_layer; input_points_layer; od_cost_matrix_lines]
           delete_if_exists.

(** Lines 133-144. *)
Definition make_od_cost_matrix_layer : M unit :=
  arcpy.MakeODCostMatrixLayer_na (input_network a) od_cost_matrix_layer
    od_cost_matrix_lines (impedance_attribute a) (cutoff_radius (search_radius a))
    (accumulator_attributes a).

(** Lines 146-164; the division by [POINTS_PER_RASTER_CELL] raises when
    that is zero. *)
Definition make_polygons (input_point_count : Z) : M unit :=
  let* w := get in
  let '(width, height) := extent E (points w) in
  when (bool_decide (Py.to_Qc (POINTS_PER_RASTER_CELL K) = 0%Qc)) (raise ZeroDivisionError) ;;
  arcpy.PointToRaster_conversion E (id_attribute a) raster
    (raster_cell_size width height input_point_count) ;;
  arcpy.RasterToPolygon_conversion raster polygons.

(** Lines 166-175. *)
Definition start_adjacency_list : M unit :=
  arcpy.TableToTable_conversion od_cost_matrix_lines temp_adj_dbf ;;
  let* cells := arcpy.rows_of polygons in
  arcpy.MakeFeatureLayer_management cells polygons_layer ;;
  let* w := get in
  arcpy.MakeFeatureLayer_management (points w) input_points_layer.

(** Lines 190-199. *)
Definition add_locations (sub_layer : SubLayer)
    (field_mappings : gmap string Value → gmap string Value) : M unit :=
  arcpy.AddLocations_na sub_layer input_points_layer field_mappings.

(** Lines 181-244: the body of the loop over the polygons. *)
Definition solve_cell (row : gmap string Value) : M unit :=
  let* fid := try (row !! "FID"%string) RuntimeError in
  let* cells := arcpy.rows_of polygons in
  arcpy.SelectLayerByAttribute_management polygons_layer cells fid ;;
  let* w := get in
  arcpy.SelectLayerByLocation_management E input_points_layer (points w) polygons_layer None ;;
  add_locations Origins (name_and_curb (id_attribute a)) ;;
  arcpy.SelectLayerByLocation_management E input_points_layer (points w) polygons_layer
    (Some (max_neighbor_separation a)) ;;
  add_locations Destinations (name_and_curb (id_attribute a)) ;;
  add_locations Point_Barriers (barrier_mappings (id_attribute a) (impedance_attribute a)) ;;
  arcpy.Solve_na E od_cost_matrix_lines ;;
  arcpy.CalculateField_management od_cost_matrix_lines (ORIGIN_ID_FIELD_NAME K) (name_part 0) ;;
  arcpy.CalculateField_management od_cost_matrix_lines (DESTINATION_ID_FIELD_NAME K) (name_part 1) ;;
  arcpy.CalculateField_management od_cost_matrix_lines distance_field
    (corrected_distance distance_field) ;;
  arcpy.TableToTable_conversion od_cost_matrix_lines partial_adj_dbf ;;
  arcpy.Append_management partial_adj_dbf temp_adj_dbf.

(** Lines 177-244. *)
Definition solve_cells : M unit :=
  let* rows := arcpy.rows_of polygons in
  for_each rows solve_cell.

(** Lines 246-259. *)
Definition finish : M unit :=
  arcpy.Rename_management temp_adj_dbf adj_dbf ;;
  for_each [od_cost_matrix_layer; partial_adj_dbf; polygons; raster; polygons_layer;
            input_points_layer; auxiliary_dir]
           delete_if_exists.

Definition compute_adjacency_list : M unit :=
  let* w := get in
  let input_point_count := Z.of_nat (length (points w)) in
  make_auxiliary_dir ;;
  check_network ;;
  let test_input_point := head (points w) in
  calculate_locations test_input_point ;;
  calculate_barrier_costs test_input_point ;;
  remove_old_files ;;
  make_od_cost_matrix_layer ;;
  make_polygons input_point_count ;;
  start_adjacency_list ;;
  solve_cells ;;
  finish.

End Script.

Definition Qcsum (l : list Qc) : Qc := foldr Qcplus 0%Qc l.

(** ** A street

    An engine small enough to run: points lie along one street, a cell of
    the raster is a stretch of it, and the cost of a path is its length
    plus the cost of every barrier it passes; a path that stays where it
    starts passes none. *)

Module Street.

Definition K : Constants := {|
  AUXILIARY_DIR_NAME := "Auxiliary Files";
  EDGE_FEATURE := "EdgeFeature";
  JUNCTION_FEATURE := ["JunctionFeature"; "SystemJunction"];
  NETWORK_LOCATION_FIELDS := ["SourceID"; "SourceOID"; "PosAlong"; "SideOfEdge"; "SnapX"; "SnapY"; "Distance"];
  BARRIER_COST_FIELD := "Barrier_Cost";
  BARRIER_COST := PyFloat (Qc_of_Z 100000);
  POINTS_PER_RASTER_CELL := PyInt 100;
  OD_COST_MATRIX_LAYER_NAME := "OD_Cost_Matrix_Layer";
  OD_COST_MATRIX_LINES := "Lines";
  PARTIAL_ADJACENCY_LIST_NAME := "Partial_Adjacency_List.dbf";
  POLYGONS_SHAPEFILE_NAME := "Polygons.shp";
  RASTER_NAME := "Raster";
  POLYGONS_LAYER_NAME := "Polygons_Layer";
  INPUT_POINTS_LAYER_NAME := "Input_Points_Layer";
  ORIGIN_ID_FIELD_NAME := "OriginID";
  DESTINATION_ID_FIELD_NAME := "DestinationID";
  trim := String.substring 0 10
|}.

Definition num (field : string) (row : gmap string Value) : Qc :=
  match row !! field with Some (VNum n) => Py.to_Qc n | _ => 0%Qc end.

Definition text (field : string) (row : gmap string Value) : string :=
  match row !! field with Some (VText s) => s | _ => "" end.

Definition float (z : Z) : Value := VNum (PyFloat (Qc_of_Z z)).

Definition locate (row : gmap string Value) : gmap string Value :=
  <["SourceID" := VNum (PyInt 1)]> (<["SourceOID" := VNum (PyInt 1)]>
  (<["PosAlong" := VNum (PyFloat (num "X" row / Qc_of_Z 100))]>
  (<["SideOfEdge" := VNum (PyInt 1)]>
  (<["SnapX" := VNum (PyFloat (num "X" row))]> (<["SnapY" := float 0]>
  (<["Distance" := float 0]> row)))))).

Definition cell (fid lo hi : Z) : gmap string Value :=
  {[ "FID" := VNum (PyInt fid); "XMin" := float lo; "XMax" := float hi ]}.

Definition Qcabs (q : Qc) : Qc := if bool_decide (0 ≤ q)%Qc then q else (- q)%Qc.
Definition between (x lo hi : Qc) : bool :=
  bool_decide (lo ≤ x)%Qc && bool_decide (x ≤ hi)%Qc.
Definition total (l : ODLayer) (o d : Location) : Qc :=
  let xo := num "SnapX" (feature o) in
  let xd := num "SnapX" (feature d) in
  if bool_decide (xo = xd) then 0%Qc
  else (Qcabs (xo - xd) +
        Qcsum ((λ b, num ("Attr_" +:+ impedance l) (properties b)) <$>
               filter (λ b, between (num "SnapX" (feature b)) xo xd = true
                            ∨ between (num "SnapX" (feature b)) xd xo = true)
                      (barriers l)))%Qc.

Definition line (l : ODLayer) (o d : Location) : gmap string Value :=
  {[ "Name" := VText (text "Name" (properties o) +:+ " - " +:+ text "Name" (properties d));
     "Total_" +:+ impedance l := VNum (PyFloat (total l o d)) ]}.

Definition E : Engine := {|
  join := λ a b, a +:+ "/" +:+ b;
  sources := λ n, if bool_decide (n = "Streets_ND")
                  then [ {| sourceType := "EdgeFeature"; name := "Streets" |};
                         {| sourceType := "JunctionFeature"; name := "Streets_ND_Junctions" |} ]
                  else [];
  located := λ _ rows, locate <$> rows;
  extent := λ _, (PyFloat (Qc_of_Z 100), PyFloat (Qc_of_Z 1));
  tiles := λ _ _ _, [cell 0 0 50; cell 1 50 100];
  within := λ poly d p,
    let r := match d with Some n => Py.to_Qc n | None => 0%Qc end in
    between (num "X" p) (num "XMin" poly - r) (num "XMax" poly + r);
  solve := λ l,
    Some (filter (λ r, (num ("Total_" +:+ impedance l) r ≤ Py.to_Qc (default_cutoff l))%Qc)
                 (o ← origins l; d ← destinations l; [line l o d]))
|}.

Definition point (id : string) (x : Z) : gmap string Value :=
  {[ "ID" := VText id; "X" := float x ]}.

Definition args : Args := {|
  input_network := "Streets_ND";
  id_attribute := "ID";
  impedance_attribute := "Len";
  accumulator_attributes := [];
  search_radius := PyFloat (Qc_of_Z 40);
  max_neighbor_separation := PyFloat (Qc_of_Z 40);
  output_location := "C:/out";
  adj_dbf_name := "adj.dbf"
|}.

Definition no_layer : ODLayer := {|
  network := ""; impedance := ""; default_cutoff := PyInt 0; accumulators := [];
  origins := []; destinations := []; barriers := [] |}.

Definition world : World := {|
  points := [point "1" 10; point "2" 10; point "3" 40; point "4" 95];
  files := ∅; od := no_layer; trace := [] |}.

(** The street with an engine whose solve fails, and an adjacency list
    left by an earlier run. *)
Definition broken : Engine := {|
  join := join E; sources := sources E; located := located E;
  extent := extent E; tiles := tiles E; within := within E;
  solve := λ _, None |}.

Definition stale : World := {|
  points := points world;
  files := {[ "C:/out/adj.dbf" := [point "1" 10] ]};
  od := no_layer; trace := [] |}.

(** The constants of the street with no point to a cell. *)
Definition empty_cells : Constants := {|
  AUXILIARY_DIR_NAME := AUXILIARY_DIR_NAME K;
  EDGE_FEATURE := EDGE_FEATURE K;
  JUNCTION_FEATURE := JUNCTION_FEATURE K;
  NETWORK_LOCATION_FIELDS := NETWORK_LOCATION_FIELDS K;
  BARRIER_COST_FIELD := BARRIER_COST_FIELD K;
  BARRIER_COST := BARRIER_COST K;
  POINTS_PER_RASTER_CELL := PyInt 0;
  OD_COST_MATRIX_LAYER_NAME := OD_COST_MATRIX_LAYER_NAME K;
  OD_COST_MATRIX_LINES := OD_COST_MATRIX_LINES K;
  PARTIAL_ADJACENCY_LIST_NAME := PARTIAL_ADJACENCY_LIST_NAME K;
  POLYGONS_SHAPEFILE_NAME := POLYGONS_SHAPEFILE_NAME K;
  RASTER_NAME := RASTER_NAME K;
  POLYGONS_LAYER_NAME := POLYGONS_LAYER_NAME K;
  INPUT_POINTS_LAYER_NAME := INPUT_POINTS_LAYER_NAME K;
  ORIGIN_ID_FIELD_NAME := ORIGIN_ID_FIELD_NAME K;
  DESTINATION_ID_FIELD_NAME := DESTINATION_ID_FIELD_NAME K;
  trim := trim K
|}.

End Street.

(** ** Vocabulary of the properties *)

(** [wp m Q F w]: run from [w], [m] returns a value and a world that
    satisfy [Q], or raises an exception in a world that satisfies [F]. *)
Definition wp {A} (m : M A) (Q : A → World → Prop) (F : Exn → World → Prop)
    (w : World) : Prop :=
  match m w with
  | (Ok a, w') => Q a w'
  | (Raise e, w') => F e w'
  end.

(** A run of the script, with the calls it makes logged from scratch. *)
Definition run (K : Constants) (E : Engine) (a : Args) (w : World) : Result unit * World :=
  compute_adjacency_list K E a (set_trace [] w).

(** The rows snapped to one location. *)
Definition colocated (K : Constants) (xy : Value * Value) (rows : Table) : Table :=
  filter (λ r, get_xy K r = Some xy) rows.

(** The barrier cost a row carries. *)
Definition barrier_cost_of (K : Constants) (row : gmap string Value) : Qc :=
  match row !! trim K (BARRIER_COST_FIELD K) with
  | Some (VNum n) => Py.to_Qc n
  | _ => 0%Qc
  end.

(** The row after lines 101-104, given all rows of the table. *)
Definition share (K : Constants) (rows : Table) (r : gmap string Value)
    : gmap string Value :=
  match get_xy K r with
  | Some xy =>
      <[trim K (BARRIER_COST_FIELD K) :=
          double (Py.div (BARRIER_COST K)
                         (PyInt (Z.of_nat (length (colocated K xy rows)))))]> r
  | None => r
  end.

Section Vocabulary.
Context (K : Constants) (E : Engine) (a : Args).

(** The points that a selection by location picks for a selection of
    polygons. *)
Definition selected (cells : Table) (search_distance : option Py.Num) (pts : Table) : Table :=
  filter (λ p, existsb (λ poly, within E poly search_distance p) cells = true) pts.

(** What the script loads into the layer that it hands to [Solve_na],
    given the rows of the input points. *)
Definition loaded (pts : Table) (l : ODLayer) : Prop :=
  default_cutoff l = cutoff_radius K (search_radius a) ∧
  (∃ cells, feature <$> origins l = selected cells None pts) ∧
  (∃ cells, feature <$> destinations l
            = selected cells (Some (max_neighbor_separation a)) pts) ∧
  feature <$> barriers l = feature <$> destinations l ∧
  Forall (λ b, properties b
               = barrier_mappings K (id_attribute a) (impedance_attribute a) (feature b))
         (barriers l).

(** The calls the script makes: which tools, and with which arguments
    where they matter.  [locations_calculated] and
    [barrier_costs_calculated] are what lines 63 and 74 find, [pts] the
    rows of the input points after lines 61-106, [n] their number. *)
Definition expected_call (locations_calculated barrier_costs_calculated : bool)
    (pts : Table) (n : Z) (e : Call.Event) : Prop :=
  match e with
  | Call.mkdir dir => dir = auxiliary_dir K E a
  | Call.AddMessage _ | Call.AddWarning _ => True
  | Call.CalculateLocations_na _ => locations_calculated = false
  | Call.AddField_management _ => barrier_costs_calculated = false
  | Call.MakeODCostMatrixLayer_na c => c = cutoff_radius K (search_radius a)
  | Call.PointToRaster_conversion c =>
      c = raster_cell_size K (extent E pts).1 (extent E pts).2 n
  | Call.Solve_na l => loaded pts l
  | _ => True
  end.

(** The row that lines 221-234 make of a line of the solver. *)
Definition fragment_row (line : gmap string Value) : option (gmap string Value) :=
  o ← name_part 0 line;
  let r1 := <[ORIGIN_ID_FIELD_NAME K := o]> line in
  d ← name_part 1 r1;
  let r2 := <[DESTINATION_ID_FIELD_NAME K := d]> r1 in
  c ← corrected_distance K (distance_field K a) r2;
  Some (<[distance_field K a := c]> r2).

(** The rows that the solves among the calls (the latest first) leave in
    the adjacency list: the rows made of the lines of each solve, in the
    order of the solves. *)
Fixpoint fragments (calls : list Call.Event) : option Table :=
  match calls with
  | [] => Some []
  | Call.Solve_na l :: calls =>
      T ← fragments calls;
      lines ← solve E l;
      rows ← mapM fragment_row lines;
      Some (T ++ rows)
  | _ :: calls => fragments calls
  end.

(** The files of a run. *)
Definition run_files : list string :=
  [auxiliary_dir K E a; od_cost_matrix_layer K E a; od_cost_matrix_lines K E a;
   temp_adj_dbf E a; adj_dbf E a; partial_adj_dbf K E a; polygons K E a; raster K E a;
   polygons_layer K E a; input_points_layer K E a].


(** Lines 54 and 57: a source name was not recorded. *)
Definition lacking (p : option string * option string) : Prop :=
  p.1 = None ∨ p.2 = None.

(** What holds of the world all along a run: the rows of the input
    points are [pts] and every call made is an expected one. *)
Definition steady (lc bc : bool) (pts : Table) (n : Z) (w : World) : Prop :=
  points w = pts ∧ Forall (expected_call lc bc pts n) (trace w).

(** From line 137 on, the layer has the cutoff of line 134. *)
Definition layered (lc bc : bool) (pts : Table) (n : Z) (w : World) : Prop :=
  steady lc bc pts n w ∧
  default_cutoff (od w) = cutoff_radius K (search_radius a).

(** What holds when a step after line 59 raises. *)
Definition failed (lc bc : bool) (pts : Table) (n : Z) (e : Exn) (w : World) : Prop :=
  steady lc bc pts n w ∧ ∀ net, e ≠ Invalid_Input_Exception net.

(** The rows of the input points after lines 61-106, given what lines 63
    and 74 find. *)
Definition preprocessed (lc bc : bool) (rows : Table) : option Table :=
  let rows := if lc then rows else located E (input_network a) rows in
  if bc then Some rows
  else barrier_costs K (insert (trim K (BARRIER_COST_FIELD K)) (double (PyInt 0)) <$> rows).

(** What holds of the files from line 175 on: nothing is at the final
    path, and the temporary table holds the rows of the solves so far. *)
Definition gathering (w : World) : Prop :=
  files w !! adj_dbf E a = None ∧
  ∃ T, files w !! temp_adj_dbf E a = Some T ∧ fragments (trace w) = Some T.

(** What holds of the files at the end of a run. *)
Definition finished (w : World) : Prop :=
  ∃ T, files w !! adj_dbf E a = Some T ∧ files w !! temp_adj_dbf E a = None ∧
       fragments (trace w) = Some T ∧
       Call.Rename_management (temp_adj_dbf E a) (adj_dbf E a) ∈ trace w.

End Vocabulary.

Definition is_delete (e : Call.Event) : Prop :=
  match e with Call.Delete_management _ => True | _ => False end.

Definition is_solve (e : Call.Event) : Prop :=
  match e with Call.Solve_na _ => True | _ => False end.

(** The layers handed to [Solve_na] among the calls. *)
Definition solves (calls : list Call.Event) : list ODLayer :=
  omap (λ e, match e with Call.Solve_na l => Some l | _ => None end) calls.

(** No solve was called yet. *)
Definition unsolved (w : World) : Prop := Forall (λ e, ¬ is_solve e) (trace w).

(** What holds of the files when a run raises. *)
Definition aborted (E : Engine) (a : Args) (w : World) : Prop :=
  unsolved w ∨ files w !! adj_dbf E a = None.

(** The files left after deleting those of a list. *)
Definition deleted (l : list string) (fs : gmap string Table) : gmap string Table :=
  foldl (λ m f, delete f m) fs l.


(** Lines 63 and 74. *)
Definition locations_calculated (K : Constants) (rows : Table) : bool :=
  forallb (row_has_field (head rows)) (NETWORK_LOCATION_FIELDS K).
Definition barrier_costs_calculated (K : Constants) (rows : Table) : bool :=
  row_has_field (head rows) (trim K (BARRIER_COST_FIELD K)).

(** [CalculateLocations_na] gives every row the network location fields
    and keeps the barrier cost of a row that has one. *)
Definition locates (K : Constants) (E : Engine) (a : Args) (rows : Table) : Prop :=
  Forall2 (λ r r', Forall (λ f, is_Some (r' !! f)) (NETWORK_LOCATION_FIELDS K) ∧
                   (is_Some (r !! trim K (BARRIER_COST_FIELD K)) →
                    is_Some (r' !! trim K (BARRIER_COST_FIELD K))))
          rows (located E (input_network a) rows).


(** The sign of the distance of a row. *)
Definition signed (K : Constants) (a : Args) (r r' : gmap string Value) : Prop :=
  ∃ raw c, r !! distance_field K a = Some (VNum raw) ∧
           r' !! distance_field K a = Some (VNum c) ∧
           ((0 ≤ Py.to_Qc c)%Qc ↔
            (Qc_of_Z 2 * Qc_of_Z (Py.int (BARRIER_COST K)) ≤ Py.to_Qc raw)%Qc).

(** The origin and the destination of a row are the two parts of the
    name of its line. *)
Definition named (K : Constants) (r r' : gmap string Value) : Prop :=
  ∃ nm o d, r !! "Name" = Some (VText nm) ∧
            split " - " nm !! 0%nat = Some o ∧ split " - " nm !! 1%nat = Some d ∧
            r' !! ORIGIN_ID_FIELD_NAME K = Some (VText o) ∧
            r' !! DESTINATION_ID_FIELD_NAME K = Some (VText d).

(** The rows of a table are those of the lines of the solves among the
    calls, row by line, related by [P]. *)
Definition rows_of_lines (E : Engine) (P : gmap string Value → gmap string Value → Prop)
    (calls : list Call.Event) (T : Table) : Prop :=
  (∀ l, l ∈ solves calls →
        ∃ lines, solve E l = Some lines ∧ ∀ r, r ∈ lines → ∃ r', r' ∈ T ∧ P r r') ∧
  (∀ r', r' ∈ T →
         ∃ l lines r, l ∈ solves calls ∧ solve E l = Some lines ∧ r ∈ lines ∧ P r r').

(** A string without a space. *)
Fixpoint spaceless (s : string) : bool :=
  match s with
  | EmptyString => true
  | String c s' => negb (Ascii.eqb c Ascii.Space) && spaceless s'
  end.

(** The layer that lines 181-215 hand to the solve of a cell, given the
    cells of the raster and the rows of the input points. *)
Definition cell_layer (K : Constants) (E : Engine) (a : Args) (cells pts : Table)
    (row : gmap string Value) : option ODLayer :=
  fid ← row !! "FID";
  let cell := filter (λ r, r !! "FID" = Some fid) cells in
  let near := selected E cell (Some (max_neighbor_separation a)) pts in
  Some {| network := input_network a;
          impedance := impedance_attribute a;
          default_cutoff := cutoff_radius K (search_radius a);
          accumulators := accumulator_attributes a;
          origins := (λ r, {| feature := r;
                              properties := name_and_curb (id_attribute a) r |})
                       <$> selected E cell None pts;
          destinations := (λ r, {| feature := r;
                                   properties := name_and_curb (id_attribute a) r |})
                            <$> near;
          barriers := (λ r, {| feature := r;
                               properties := barrier_mappings K (id_attribute a)
                                               (impedance_attribute a) r |})
                        <$> near |}.

(** The cells that lines 146-164 make of the points. *)
Definition cells_of (K : Constants) (E : Engine) (a : Args) (n : Z) (pts : Table) : Table :=
  tiles E pts (id_attribute a)
    (raster_cell_size K (extent E pts).1 (extent E pts).2 n).

(** What holds of the layer from line 137 on. *)
Definition made (K : Constants) (a : Args) (l : ODLayer) : Prop :=
  network l = input_network a ∧ impedance l = impedance_attribute a ∧
  default_cutoff l = cutoff_radius K (search_radius a) ∧
  accumulators l = accumulator_attributes a.

(** What holds in the loop of lines 180-244 after the cells [done]. *)
Definition solved (K : Constants) (E : Engine) (a : Args) (cells pts : Table)
    (done : Table) (w : World) : Prop :=
  points w = pts ∧ files w !! polygons K E a = Some cells ∧ made K a (od w) ∧
  mapM (cell_layer K E a cells pts) done = Some (reverse (solves (trace w))).

(** Every solve called so far has returned its lines. *)
Definition all_solved (E : Engine) (w : World) : Prop :=
  Forall (λ l, is_Some (solve E l)) (solves (trace w)).

(** A solve that failed is the last call made, and what was raised is its
    error. *)
Definition solve_raised (E : Engine) (e : Exn) (w : World) : Prop :=
  ∀ l, l ∈ solves (trace w) → solve E l = None →
       e = ExecuteError ∧ head (trace w) = Some (Call.Solve_na l).

(** * Reasoning about computations *)

Section WP.
Context {A B : Type}.
Implicit Types (Q : A → World → Prop) (F : Exn → World → Prop).

Lemma wp_ret (x : A) Q F w : Q x w → wp (ret x) Q F w.
Proof. done. Qed.

Lemma wp_raise e Q F w : F e w → wp (raise e) Q F w.
Proof. done. Qed.

Lemma wp_bind (m : M A) (k : A → M B) (Q : B → World → Prop) F w :
  wp m (λ x w', wp (k x) Q F w') F w → wp (bind m k) Q F w.
Proof. unfold wp, bind. by destruct (m w) as [[x|e] w']. Qed.

Lemma wp_mono (m : M A) Q Q' F F' w :
  wp m Q F w → (∀ x w', Q x w' → Q' x w') → (∀ e w', F e w' → F' e w') →
  wp m Q' F' w.
Proof. unfold wp. destruct (m w) as [[x|e] w']; auto. Qed.

Lemma wp_try (o : option A) e Q F w :
  match o with Some x => Q x w | None => F e w end → wp (try o e) Q F w.
Proof. by destruct o. Qed.

End WP.

Lemma wp_get Q F w : Q w w → wp get Q F w.
Proof. done. Qed.

Lemma wp_modify f Q F w : Q tt (f w) → wp (modify f) Q F w.
Proof. done. Qed.

Lemma wp_call e Q F w : Q tt (set_trace (e :: trace w) w) → wp (call e) Q F w.
Proof. done. Qed.

Lemma wp_when (b : bool) m Q F w :
  (if b then wp m Q F w else Q tt w) → wp (when b m) Q F w.
Proof. by destruct b. Qed.

(** A loop keeps what every run of its body keeps. *)
Lemma wp_for_each {A} (l : list A) body (I : World → Prop) F w :
  I w → (∀ x w', x ∈ l → I w' → wp (body x) (λ _, I) F w') →
  wp (for_each l body) (λ _, I) F w.
Proof.
  revert w. induction l as [|x l IH]; intros w HI Hbody; [done|].
  cbn. apply wp_bind. eapply wp_mono; [apply Hbody; [left|done]| |done].
  intros [] w' HI'. apply IH; [done|]. intros y w'' Hy. apply Hbody. by right.
Qed.

(** * Numbers *)

Section Numbers.
Implicit Types (a b : Py.Num) (x y : Qc) (n : Z).
Local Open Scope Qc_scope.


Lemma to_Qc_sub a b : Py.to_Qc (Py.sub a b) = Py.to_Qc a - Py.to_Qc b.
Proof. destruct a, b; cbn; by rewrite ?Z2Qc_inj_sub. Qed.

Lemma to_Qc_mul a b : Py.to_Qc (Py.mul a b) = Py.to_Qc a * Py.to_Qc b.
Proof. destruct a, b; cbn; by rewrite ?Z2Qc_inj_mul. Qed.


Lemma to_Qc_max a b :
  Py.to_Qc (Py.max a b) = if decide (Py.to_Qc a < Py.to_Qc b) then Py.to_Qc b else Py.to_Qc a.
Proof. unfold Py.max, Py.ltb. case_bool_decide; by case_decide. Qed.


Lemma div_int_exact n m :
  m ≠ 0%Z → (m | n)%Z → Py.to_Qc (Py.div (PyInt n) (PyInt m)) = Qc_of_Z n / Qc_of_Z m.
Proof.
  intros Hm [k ->]. cbn. rewrite Z.div_mul by done. rewrite Z2Qc_inj_mul.
  field. by rewrite <-Z2Qc_inj_0, Z2Qc_inj_iff.
Qed.





End Numbers.

(** * Barrier costs (lines 83-105) *)

Section BarrierCosts.
Context (K : Constants).
Local Open Scope Qc_scope.

Local Abbreviation bf := (trim K (BARRIER_COST_FIELD K)).
Local Abbreviation occ xy rows := (Z.of_nat (length (colocated K xy rows))).

Lemma colocated_cons xy r rows :
  colocated K xy (r :: rows) =
  if decide (get_xy K r = Some xy) then r :: colocated K xy rows else colocated K xy rows.
Proof. unfold colocated. by rewrite filter_cons. Qed.

(** The first loop counts, for every location, the rows snapped to it. *)
Lemma count_xy_spec rows acc :
  Forall (λ r, is_Some (get_xy K r)) rows →
  ∃ m, count_xy K rows acc = Some m ∧
       ∀ xy, m !! xy = if decide (occ xy rows = 0)%Z then acc !! xy
                       else Some (default 0 (acc !! xy) + occ xy rows)%Z.
Proof.
  intros Hrows. revert acc. induction Hrows as [|r rows [k Hk] _ IH]; intros acc.
  { exists acc. split; [done|]. intros xy. by rewrite decide_True. }
  cbn [count_xy]. rewrite Hk. cbn [mbind option_bind].
  destruct (IH (match acc !! k with
                | Some n => <[k := (n + 1)%Z]> acc
                | None => <[k := 1%Z]> acc
                end)) as (m & -> & Hm).
  exists m. split; [done|]. intros xy. rewrite Hm, colocated_cons, Hk.
  destruct (decide (k = xy)) as [->|Hne].
  - rewrite (decide_True (P:=Some xy = Some xy)) by done. cbn [length].
    destruct (acc !! xy) as [n|] eqn:Hacc; rewrite lookup_insert_eq; cbn;
      repeat case_decide; try lia; f_equal; lia.
  - rewrite (decide_False (P:=Some k = Some xy)) by congruence.
    destruct (acc !! k); by rewrite lookup_insert_ne.
Qed.

Lemma mapM_Some_fmap {A B} (f : A → option B) (g : A → B) (l : list A) :
  Forall (λ x, f x = Some (g x)) l → mapM f l = Some (g <$> l).
Proof. induction 1 as [|x l Hx _ IH]; [done|]. cbn. by rewrite Hx, IH. Qed.

Lemma barrier_costs_spec rows :
  Forall (λ r, is_Some (get_xy K r)) rows →
  barrier_costs K rows = Some (share K rows <$> rows).
Proof.
  intros Hrows. unfold barrier_costs.
  destruct (count_xy_spec rows ∅ Hrows) as (m & -> & Hm). cbn.
  apply mapM_Some_fmap, Forall_forall. intros r Hr.
  rewrite Forall_forall in Hrows. destruct (Hrows r Hr) as [xy Hxy].
  unfold set_barrier_cost, share. rewrite Hxy. cbn. rewrite Hm.
  rewrite decide_False.
  - rewrite lookup_empty. cbn. by rewrite Z.add_0_l.
  - assert (r ∈ colocated K xy rows) as Hin by (by apply list_elem_of_filter).
    destruct (colocated K xy rows); [by apply not_elem_of_nil in Hin|]. cbn. lia.
Qed.


Section Distinct.
Hypothesis snap_x : bf ≠ trim K "SnapX".
Hypothesis snap_y : bf ≠ trim K "SnapY".

Lemma get_xy_share rows r : get_xy K (share K rows r) = get_xy K r.
Proof.
  unfold share. destruct (get_xy K r) as [xy|] eqn:Hxy; [|done].
  rewrite <-Hxy. unfold get_xy. by rewrite !lookup_insert_ne.
Qed.

Lemma colocated_share xy rows :
  colocated K xy (share K rows <$> rows) = share K rows <$> colocated K xy rows.
Proof.
  unfold colocated. generalize (share K rows) (get_xy_share rows). intros g Hg.
  induction rows as [|r l IH]; [done|].
  rewrite fmap_cons, !filter_cons, Hg, IH. by case_decide.
Qed.

Lemma share_colocated xy rows r :
  r ∈ colocated K xy rows →
  share K rows r = <[bf := double (Py.div (BARRIER_COST K) (PyInt (occ xy rows)))]> r.
Proof. intros [Hxy _]%list_elem_of_filter. unfold share. by rewrite Hxy. Qed.

Lemma barrier_cost_of_insert n r : barrier_cost_of K (<[bf := double n]> r) = Py.to_Qc n.
Proof. unfold barrier_cost_of. by rewrite lookup_insert_eq. Qed.


Lemma get_xy_insert v r : get_xy K (<[bf := v]> r) = get_xy K r.
Proof. unfold get_xy. by rewrite !lookup_insert_ne. Qed.


End Distinct.
End BarrierCosts.


(** * The calls of a run *)

Create HintDb tools discriminated.
#[global] Hint Unfold arcpy.Exists arcpy.rows_of arcpy.write arcpy.Delete_management
  arcpy.CalculateLocations_na arcpy.AddField_management arcpy.MakeODCostMatrixLayer_na
  arcpy.PointToRaster_conversion arcpy.RasterToPolygon_conversion
  arcpy.TableToTable_conversion arcpy.MakeFeatureLayer_management
  arcpy.SelectLayerByAttribute_management arcpy.SelectLayerByLocation_management
  arcpy.AddLocations_na arcpy.Solve_na arcpy.CalculateField_management
  arcpy.Append_management arcpy.Rename_management arcpy.AddMessage arcpy.AddWarning
  mkdir add_locations delete_if_exists : tools.

Ltac world_simpl :=
  cbn beta;
  cbn [points files od trace set_points set_files set_od set_trace fst snd
       network impedance default_cutoff accumulators origins destinations barriers
       arcpy.set_sub_layer].

(** One step of a computation. *)
Ltac wp_head :=
  lazymatch goal with
  | |- wp (bind _ _) _ _ _ => apply wp_bind
  | |- wp (ret _) _ _ _ => apply wp_ret
  | |- wp (raise _) _ _ _ => apply wp_raise
  | |- wp get _ _ _ => apply wp_get
  | |- wp (modify _) _ _ _ => apply wp_modify
  | |- wp (call _) _ _ _ => apply wp_call
  | |- wp (try _ _) _ _ _ => apply wp_try
  | |- wp (when _ _) _ _ _ => apply wp_when
  end.

(** A lookup in the files just written. *)
Ltac wp_lookup :=
  lazymatch goal with
  | |- context [<[?k := _]> _ !! ?k] => rewrite lookup_insert_eq
  end.

Ltac wp_case :=
  lazymatch goal with
  | |- wp (match ?x with _ => _ end) _ _ _ => destruct x eqn:?
  | |- match ?o with Some _ => _ | None => _ end => destruct o eqn:?
  | |- if ?b then _ else _ => destruct b eqn:?
  end.

Ltac wp_go :=
  autounfold with tools;
  repeat first [ wp_head; world_simpl | wp_lookup; world_simpl | wp_case; world_simpl ].

Ltac inv_split :=
  unfold layered, failed, steady; world_simpl;
  repeat match goal with |- _ ∧ _ => split end; try done;
  repeat (apply Forall_cons; split); try done.

Lemma wp_seq {A B} (m : M A) (k : A → M B) (I : World → Prop) Q F w :
  wp m (λ _, I) F w → (∀ x w', I w' → wp (k x) Q F w') → wp (bind m k) Q F w.
Proof. intros Hm Hk. apply wp_bind. eapply wp_mono; [exact Hm| |done]. intros x w'. apply Hk. Qed.

Section Calls.
Context (K : Constants) (E : Engine) (a : Args).
Context (lc bc : bool) (n : Z).

Local Abbreviation ok pts := (expected_call K E a lc bc pts n).
Local Abbreviation steady' := (steady K E a lc bc).
Local Abbreviation layered' := (layered K E a lc bc).
Local Abbreviation failed' := (failed K E a lc bc).

Lemma loaded_layer rows cells cells' l :
  default_cutoff l = cutoff_radius K (search_radius a) →
  loaded K E a rows
    (arcpy.set_sub_layer Point_Barriers
       ((λ r, {| feature := r;
                 properties := barrier_mappings K (id_attribute a) (impedance_attribute a) r |})
          <$> selected E cells' (Some (max_neighbor_separation a)) rows)
       (arcpy.set_sub_layer Destinations
          ((λ r, {| feature := r; properties := name_and_curb (id_attribute a) r |})
             <$> selected E cells' (Some (max_neighbor_separation a)) rows)
          (arcpy.set_sub_layer Origins
             ((λ r, {| feature := r; properties := name_and_curb (id_attribute a) r |})
                <$> selected E cells None rows)
             l))).
Proof.
  intros Hcut. unfold loaded. cbn.
  rewrite <-!list_fmap_compose. cbn. rewrite !list_fmap_id.
  repeat split; [done|by exists cells|by exists cells'|].
  apply Forall_fmap, Forall_true. done.
Qed.

Lemma solve_cell_layered pts row w :
  layered' pts n w → wp (solve_cell K E a row) (λ _, layered' pts n) (failed' pts n) w.
Proof.
  intros [[Hpts Hok] Hcut]. unfold solve_cell. wp_go.
  all: inv_split.
  all: rewrite <-Hpts; by apply loaded_layer.
Qed.

Lemma solve_cells_layered pts w :
  layered' pts n w → wp (solve_cells K E a) (λ _, layered' pts n) (failed' pts n) w.
Proof.
  intros Hw. unfold solve_cells. wp_go.
  - apply wp_for_each; [done|]. intros row w' _. apply solve_cell_layered.
  - destruct Hw as [[??]?]. by inv_split.
Qed.

Lemma delete_steady pts file w :
  steady' pts n w → wp (delete_if_exists file) (λ _, steady' pts n) (failed' pts n) w.
Proof. intros [Hpts Hok]. wp_go; by inv_split. Qed.

Lemma deletes_steady pts files w :
  steady' pts n w →
  wp (for_each files delete_if_exists) (λ _, steady' pts n) (failed' pts n) w.
Proof. intros Hw. apply wp_for_each; [done|]. intros f w' _. apply delete_steady. Qed.

Lemma make_od_cost_matrix_layer_layered pts w :
  steady' pts n w →
  wp (make_od_cost_matrix_layer K E a) (λ _, layered' pts n) (failed' pts n) w.
Proof. intros [Hpts Hok]. unfold make_od_cost_matrix_layer. wp_go; by inv_split. Qed.

Lemma make_polygons_layered pts w :
  layered' pts n w →
  wp (make_polygons K E a n) (λ _, layered' pts n) (failed' pts n) w.
Proof.
  intros [[Hpts Hok] Hcut]. unfold make_polygons. wp_go; inv_split.
  all: match goal with H : extent _ _ = _ |- _ => cbn; by rewrite <-Hpts, H end.
Qed.

Lemma start_adjacency_list_layered pts w :
  layered' pts n w →
  wp (start_adjacency_list K E a) (λ _, layered' pts n) (failed' pts n) w.
Proof. intros [[Hpts Hok] Hcut]. unfold start_adjacency_list. wp_go; by inv_split. Qed.

Lemma finish_steady pts w :
  layered' pts n w → wp (finish K E a) (λ _, steady' pts n) (failed' pts n) w.
Proof.
  intros [[Hpts Hok] Hcut]. unfold finish. autounfold with tools.
  eapply (wp_seq _ _ (steady' pts n)).
  - wp_go; by inv_split.
  - intros _ w' Hw'. by apply deletes_steady.
Qed.

Lemma late_calls pts w :
  steady' pts n w →
  wp (remove_old_files K E a ;; make_od_cost_matrix_layer K E a ;; make_polygons K E a n ;;
      start_adjacency_list K E a ;; solve_cells K E a ;; finish K E a)
     (λ _, steady' pts n) (failed' pts n) w.
Proof.
  intros Hw.
  eapply wp_seq; [by apply deletes_steady|]. intros _ w1 H1.
  eapply wp_seq; [by apply make_od_cost_matrix_layer_layered|]. intros _ w2 H2.
  eapply wp_seq; [by apply make_polygons_layered|]. intros _ w3 H3.
  eapply wp_seq; [by apply start_adjacency_list_layered|]. intros _ w4 H4.
  eapply wp_seq; [by apply solve_cells_layered|]. intros _ w5 H5.
  by apply finish_steady.
Qed.

Lemma preprocessed_calls test w :
  lc = forallb (row_has_field test) (NETWORK_LOCATION_FIELDS K) →
  bc = row_has_field test (trim K (BARRIER_COST_FIELD K)) →
  (∀ pts, Forall (ok pts) (trace w)) →
  wp (calculate_locations K E a test ;; calculate_barrier_costs K test ;;
      remove_old_files K E a ;; make_od_cost_matrix_layer K E a ;; make_polygons K E a n ;;
      start_adjacency_list K E a ;; solve_cells K E a ;; finish K E a)
     (λ _ w', steady' (points w') n w' ∧
              preprocessed K E a lc bc (points w) = Some (points w'))
     (λ e w', failed' (points w') n e w') w.
Proof.
  intros Hlc Hbc Hw.
  eapply (wp_seq _ _ (λ w', (∀ pts, Forall (ok pts) (trace w')) ∧
                            points w' = if lc then points w
                                        else located E (input_network a) (points w))).
  { unfold calculate_locations. rewrite <-Hlc. wp_go.
    - split; [|by destruct lc]. intros pts. inv_split. cbn. by destruct lc.
    - split; [done|]. by destruct lc. }
  intros _ w1 [H1 Hp1].
  eapply (wp_seq _ _ (λ w', (∀ pts, Forall (ok pts) (trace w')) ∧
                            preprocessed K E a lc bc (points w) = Some (points w'))).
  { unfold calculate_barrier_costs, preprocessed. rewrite <-Hbc, <-Hp1. wp_go.
    - split; [|destruct bc; [discriminate|done]].
      intros pts. inv_split. cbn. by apply negb_true_iff.
    - inv_split. cbn. by apply negb_true_iff.
    - split; [done|]. by destruct bc. }
  intros _ w2 [H2 Hp2].
  eapply wp_mono; [apply (late_calls (points w2)); by split| |].
  - intros _ w' [Hp Hok]. unfold steady. rewrite Hp. by repeat split.
  - intros e w' [[<- Hok] He]. by repeat split.
Qed.

End Calls.

Section Run.
Context (K : Constants) (E : Engine) (a : Args).

Lemma run_calls w :
  let lc := forallb (row_has_field (head (points w))) (NETWORK_LOCATION_FIELDS K) in
  let bc := row_has_field (head (points w)) (trim K (BARRIER_COST_FIELD K)) in
  let n := Z.of_nat (length (points w)) in
  wp (compute_adjacency_list K E a)
     (λ _ w', steady K E a lc bc (points w') n w' ∧
              preprocessed K E a lc bc (points w) = Some (points w'))
     (λ e w', steady K E a lc bc (points w') n w' ∧
              ((∃ net, e = Invalid_Input_Exception net) →
               lacking (record_sources K (sources E (input_network a)))))
     (set_trace [] w).
Proof.
  intros lc bc n. unfold compute_adjacency_list.
  wp_head; world_simpl. wp_head; world_simpl.
  eapply (wp_seq _ _ (λ w', points w' = points w ∧
                            ∀ pts, Forall (expected_call K E a lc bc pts n) (trace w'))).
  { unfold make_auxiliary_dir. wp_go; split; try done; intros pts; by inv_split. }
  intros _ w1 [Hpts H1].
  eapply (wp_seq _ _ (λ w', points w' = points w ∧
                            ∀ pts, Forall (expected_call K E a lc bc pts n) (trace w'))).
  { unfold check_network. wp_go.
    - done.
    - inv_split. intros _. by right.
    - inv_split. intros _. by left. }
  intros _ w2 [Hpts2 H2].
  eapply wp_mono; [by apply (preprocessed_calls K E a lc bc n)| |].
  - intros _ w' [Hw' Hp]. by rewrite <-Hpts2.
  - intros e w' [Hw' He]. split; [done|]. intros [net ->]. by destruct (He net).
Qed.

End Run.

(** * The tables of a run *)

Section Deleting.

Lemma delete_if_exists_spec file Q F w :
  (∀ t, Forall is_delete t →
        Q tt {| points := points w; files := delete file (files w); od := od w;
                trace := t ++ trace w |}) →
  wp (delete_if_exists file) Q F w.
Proof.
  intros HQ. wp_go.
  - apply (HQ [Call.Delete_management file]). by repeat constructor.
  - specialize (HQ [] (Forall_nil_2 _)). cbn in HQ.
    apply bool_decide_eq_false, eq_None_not_Some in Heqb.
    rewrite delete_id in HQ by done.
    by destruct w.
Qed.

Lemma deletes_spec l Q F w :
  (∀ t, Forall is_delete t →
        Q tt {| points := points w; files := deleted l (files w); od := od w;
                trace := t ++ trace w |}) →
  wp (for_each l delete_if_exists) Q F w.
Proof.
  revert w. induction l as [|f l IH]; intros w HQ.
  { specialize (HQ [] (Forall_nil_2 _)). by destruct w. }
  cbn [for_each]. apply wp_bind, delete_if_exists_spec. intros t Ht.
  apply IH. intros t' Ht'. world_simpl. rewrite app_assoc.
  apply HQ. by apply Forall_app.
Qed.

Lemma lookup_deleted l (fs : gmap string Table) k :
  deleted l fs !! k = if decide (k ∈ l) then None else fs !! k.
Proof.
  revert fs. induction l as [|f l IH]; intros fs; [done|].
  change (deleted (f :: l) fs) with (deleted l (delete f fs)).
  rewrite IH. destruct (decide (f = k)) as [->|Hne].
  - rewrite lookup_delete_eq, (decide_True (P:=k ∈ k :: l)) by left. by case_decide.
  - rewrite lookup_delete_ne by done. apply decide_ext.
    split; [by right|]. by intros [->|?]%elem_of_cons.
Qed.

End Deleting.

Section Fragments.
Context (K : Constants) (E : Engine) (a : Args).

Lemma fragments_deletes t calls :
  Forall is_delete t → fragments K E a (t ++ calls) = fragments K E a calls.
Proof. induction 1 as [|e t He _ IH]; [done|]. by destruct e. Qed.

Lemma fragments_unsolved calls :
  Forall (λ e, ¬ is_solve e) calls → fragments K E a calls = Some [].
Proof. induction 1 as [|e t He _ IH]; [done|]. by destruct e. Qed.

Lemma mapM_compose {A B C} (f : A → option B) (g : B → option C) l l1 l2 :
  mapM f l = Some l1 → mapM g l1 = Some l2 → mapM (λ x, f x ≫= g) l = Some l2.
Proof.
  rewrite !mapM_Some. intros H1. revert l2.
  induction H1 as [|x y l l1 Hxy _ IH]; intros l2 H2; inversion H2; subst; constructor.
  - by rewrite Hxy.
  - by apply IH.
Qed.

Lemma mapM_ext' {A B} (f g : A → option B) l : (∀ x, f x = g x) → mapM f l = mapM g l.
Proof. intros Hfg. induction l as [|x l IH]; [done|]. cbn. by rewrite Hfg, IH. Qed.

(** Lines 221-234 on the lines of a solve. *)
Lemma fragment_rows lines l2 l3 l4 :
  mapM (λ r, v ← name_part 0 r; Some (<[ORIGIN_ID_FIELD_NAME K := v]> r)) lines = Some l2 →
  mapM (λ r, v ← name_part 1 r; Some (<[DESTINATION_ID_FIELD_NAME K := v]> r)) l2 = Some l3 →
  mapM (λ r, v ← corrected_distance K (distance_field K a) r;
             Some (<[distance_field K a := v]> r)) l3 = Some l4 →
  mapM (fragment_row K a) lines = Some l4.
Proof.
  intros H2 H3 H4.
  pose proof (mapM_compose _ _ _ _ _ (mapM_compose _ _ _ _ _ H2 H3) H4) as H.
  rewrite <-H. apply mapM_ext'. intros r. unfold fragment_row.
  destruct (name_part 0 r) as [o|]; [|done]. cbn.
  by destruct (name_part 1 (<[ORIGIN_ID_FIELD_NAME K:=o]> r)).
Qed.

End Fragments.

Ltac distinct_files H :=
  let Hd := fresh "Hd" in
  pose proof H as Hd; unfold run_files in Hd;
  repeat (apply NoDup_cons in Hd as [? Hd]);
  clear Hd;
  repeat match goal with
         | H : _ ∉ _ :: _ |- _ => apply not_elem_of_cons in H as [? H]
         | H : _ ∉ [] |- _ => clear H
         end.

Ltac lookup_norm :=
  repeat first
    [ rewrite lookup_insert_eq
    | rewrite lookup_insert_ne by congruence
    | rewrite lookup_delete_eq
    | rewrite lookup_delete_ne by congruence
    | match goal with H : ?m !! ?k = _ |- context [?m !! ?k] => rewrite H end ].

Ltac wp_files :=
  autounfold with tools;
  repeat first [ wp_head; world_simpl | progress lookup_norm; world_simpl
               | wp_case; world_simpl ].

Ltac unsolved_split :=
  unfold unsolved in *; world_simpl;
  repeat (apply Forall_cons; split);
  try (let H := fresh in intros H; exact H); try done.

Section Tables.
Context (K : Constants) (E : Engine) (a : Args).
Hypothesis distinct : NoDup (run_files K E a).

Lemma solve_cell_gathering row w :
  gathering K E a w →
  wp (solve_cell K E a row) (λ _, gathering K E a) (λ _, aborted E a) w.
Proof.
  intros (Hadj & T & Htemp & HT). distinct_files distinct.
  unfold solve_cell. wp_files.
  all: unfold gathering, aborted; world_simpl; lookup_norm.
  all: try by right.
  split; [done|]. eexists. split; [done|].
  cbn [fragments]. rewrite HT. cbn.
  match goal with H : solve _ _ = _ |- _ => rewrite H end. cbn.
  erewrite fragment_rows by eassumption. done.
Qed.

Lemma solve_cells_gathering w :
  gathering K E a w →
  wp (solve_cells K E a) (λ _, gathering K E a) (λ _, aborted E a) w.
Proof.
  intros Hw. unfold solve_cells. wp_go.
  - apply wp_for_each; [done|]. intros row w' _. apply solve_cell_gathering.
  - right. apply Hw.
Qed.

Lemma remove_old_files_unsolved w :
  unsolved w →
  wp (remove_old_files K E a)
     (λ _ w', unsolved w' ∧ files w' !! adj_dbf E a = None) (λ _, aborted E a) w.
Proof.
  intros Hw. unfold remove_old_files. apply deletes_spec. intros t Ht.
  world_simpl. split.
  - unfold unsolved. world_simpl. apply Forall_app. split; [|done].
    eapply Forall_impl; [exact Ht|]. intros [] He Hs; first [exact Hs | exact He].
  - rewrite lookup_deleted, decide_True; [done|]. do 2 right. left.
Qed.

Lemma make_od_cost_matrix_layer_tables w :
  unsolved w ∧ files w !! adj_dbf E a = None →
  wp (make_od_cost_matrix_layer K E a)
     (λ _ w', (unsolved w' ∧ files w' !! adj_dbf E a = None) ∧
              files w' !! od_cost_matrix_lines K E a = Some [])
     (λ _, aborted E a) w.
Proof.
  intros [Hw Hadj]. distinct_files distinct.
  unfold make_od_cost_matrix_layer. wp_files.
  repeat split; [by unsolved_split|by lookup_norm..].
Qed.

Lemma make_polygons_tables n w :
  (unsolved w ∧ files w !! adj_dbf E a = None) ∧
  files w !! od_cost_matrix_lines K E a = Some [] →
  wp (make_polygons K E a n)
     (λ _ w', (unsolved w' ∧ files w' !! adj_dbf E a = None) ∧
              files w' !! od_cost_matrix_lines K E a = Some [])
     (λ _, aborted E a) w.
Proof.
  intros [[Hw Hadj] Hlines]. distinct_files distinct.
  unfold make_polygons. wp_files.
  - by left.
  - repeat split; [by unsolved_split|by lookup_norm..].
Qed.

Lemma start_adjacency_list_gathering w :
  (unsolved w ∧ files w !! adj_dbf E a = None) ∧
  files w !! od_cost_matrix_lines K E a = Some [] →
  wp (start_adjacency_list K E a) (λ _, gathering K E a) (λ _, aborted E a) w.
Proof.
  intros [[Hw Hadj] Hlines]. distinct_files distinct.
  unfold start_adjacency_list. wp_files.
  all: unfold gathering, aborted; world_simpl.
  - split; [by lookup_norm|]. exists []. split; [by lookup_norm|].
    apply fragments_unsolved. by unsolved_split.
  - right. by lookup_norm.
Qed.

Lemma finish_finished w :
  gathering K E a w → wp (finish K E a) (λ _, finished K E a) (λ _, aborted E a) w.
Proof.
  intros (Hadj & T & Htemp & HT). distinct_files distinct.
  unfold finish. autounfold with tools. wp_head. wp_files.
  apply deletes_spec. intros t Ht. unfold finished. world_simpl.
  exists T. rewrite !lookup_deleted, !decide_False
    by (repeat (apply not_elem_of_cons; split); first [congruence | apply not_elem_of_nil]).
  lookup_norm. repeat split; [done..| |].
  - by rewrite fragments_deletes.
  - apply elem_of_app. right. left.
Qed.

Lemma late_tables n w :
  unsolved w →
  wp (remove_old_files K E a ;; make_od_cost_matrix_layer K E a ;; make_polygons K E a n ;;
      start_adjacency_list K E a ;; solve_cells K E a ;; finish K E a)
     (λ _, finished K E a) (λ _, aborted E a) w.
Proof.
  intros Hw.
  eapply wp_seq; [by apply remove_old_files_unsolved|]. intros _ w1 H1.
  eapply wp_seq; [by apply make_od_cost_matrix_layer_tables|]. intros _ w2 H2.
  eapply wp_seq; [by apply make_polygons_tables|]. intros _ w3 H3.
  eapply wp_seq; [by apply start_adjacency_list_gathering|]. intros _ w4 H4.
  eapply wp_seq; [by apply solve_cells_gathering|]. intros _ w5 H5.
  by apply finish_finished.
Qed.

Lemma run_tables w :
  wp (compute_adjacency_list K E a) (λ _, finished K E a) (λ _, aborted E a)
     (set_trace [] w).
Proof.
  unfold compute_adjacency_list.
  wp_head; world_simpl. wp_head; world_simpl.
  eapply (wp_seq _ _ unsolved).
  { unfold make_auxiliary_dir. wp_go; by unsolved_split. }
  intros _ w1 H1. eapply (wp_seq _ _ unsolved).
  { unfold check_network. wp_go; try left; by unsolved_split. }
  intros _ w2 H2. eapply (wp_seq _ _ unsolved).
  { unfold calculate_locations. wp_go; try left; by unsolved_split. }
  intros _ w3 H3. eapply (wp_seq _ _ unsolved).
  { unfold calculate_barrier_costs. wp_go; try left; by unsolved_split. }
  intros _ w4 H4. by apply late_tables.
Qed.

End Tables.

(** * The layer of a solve (lines 201-219) *)

Section Runs.
Context (K : Constants) (E : Engine) (a : Args).


(** Every call of a run is an expected one. *)
Lemma run_steady w :
  steady K E a (forallb (row_has_field (head (points w))) (NETWORK_LOCATION_FIELDS K))
    (row_has_field (head (points w)) (trim K (BARRIER_COST_FIELD K)))
    (points (run K E a w).2) (Z.of_nat (length (points w))) (run K E a w).2.
Proof.
  pose proof (run_calls K E a w) as H. unfold wp in H. fold (run K E a w) in H.
  cbn zeta in H. by destruct (run K E a w) as [[[]|e] w']; destruct H.
Qed.




End Runs.



(** * The cutoff (line 134) *)

Section Cutoff.
Context (K : Constants) (E : Engine) (a : Args).
Local Open Scope Qc_scope.

Lemma Qcplus_le_cancel (x y z : Qc) : z + x ≤ z + y ↔ x ≤ y.
Proof.
  split; intros H.
  - apply (Qcplus_le_mono_l _ _ z). done.
  - by apply Qcplus_le_mono_l.
Qed.



End Cutoff.


(** * The raster cells (lines 146-150) *)

Section Raster.
Context (K : Constants).
Local Open Scope Qc_scope.



End Raster.



(** * The sources of the network (lines 46-59) *)

Section Sources.
Context (K : Constants) (E : Engine) (a : Args).

Local Abbreviation record acc srcs :=
  (foldl (λ '(edge_feature, junction_feature) source,
            if bool_decide (sourceType source = EDGE_FEATURE K)
            then (Some (name source), junction_feature)
            else if bool_decide (sourceType source ∈ JUNCTION_FEATURE K)
            then (edge_feature, Some (name source))
            else (edge_feature, junction_feature))
         acc srcs).






End Sources.


(** * Preprocessing (lines 61-106) *)

Section Preprocessing.
Context (K : Constants) (E : Engine) (a : Args).

Local Abbreviation bf := (trim K (BARRIER_COST_FIELD K)).

Lemma barrier_costs_rows rows rows' :
  barrier_costs K rows = Some rows' →
  Forall2 (λ r r', ∃ v, r' = <[bf := v]> r) rows rows'.
Proof.
  unfold barrier_costs. destruct (count_xy K rows ∅) as [m|]; [|done]. cbn.
  intros H%mapM_Some. eapply Forall2_impl; [exact H|]. intros r r'. cbn.
  unfold set_barrier_cost. destruct (get_xy K r) as [xy|]; [|done]. cbn.
  destruct (m !! xy); [|done]. cbn. intros [= <-]. by eexists.
Qed.

Lemma has_fields r :
  forallb (row_has_field (Some r)) (NETWORK_LOCATION_FIELDS K) = true
  ↔ Forall (λ f, is_Some (r !! f)) (NETWORK_LOCATION_FIELDS K).
Proof.
  induction (NETWORK_LOCATION_FIELDS K) as [|f l IH]; cbn; [by split|].
  rewrite andb_true_iff, Forall_cons, IH, bool_decide_eq_true. done.
Qed.

(** After lines 61-106 the first row carries the fields that lines 63
    and 74 look for. *)
Lemma preprocessed_calculated rows rows' :
  rows ≠ [] → locates K E a rows →
  preprocessed K E a (locations_calculated K rows) (barrier_costs_calculated K rows) rows
  = Some rows' →
  locations_calculated K rows' = true ∧ barrier_costs_calculated K rows' = true.
Proof.
  intros Hne Hloc. unfold locations_calculated, barrier_costs_calculated, preprocessed.
  destruct rows as [|r rows]; [done|]. cbn [head].
  set (lc := forallb (row_has_field (Some r)) (NETWORK_LOCATION_FIELDS K)).
  set (bc := row_has_field (Some r) bf).
  assert (∃ r1 rest,
            (if lc then r :: rows else located E (input_network a) (r :: rows)) = r1 :: rest ∧
            Forall (λ f, is_Some (r1 !! f)) (NETWORK_LOCATION_FIELDS K) ∧
            (is_Some (r !! bf) → is_Some (r1 !! bf))) as (r1 & rest & -> & Hf & Hb).
  { destruct lc eqn:Hlc.
    - exists r, rows. split; [done|]. split; [by apply has_fields|done].
    - unfold locates in Hloc. inversion Hloc as [|? r1 ? rest [Hf Hb]]; subst.
      by exists r1, rest. }
  destruct bc eqn:Hbc.
  - intros [= <-]. cbn. split; [by apply has_fields|].
    apply bool_decide_eq_true, Hb. by apply bool_decide_eq_true in Hbc.
  - intros H%barrier_costs_rows. rewrite fmap_cons in H.
    inversion H as [|? r' ? rest' [v ->]]; subst. cbn. split.
    + apply has_fields. eapply Forall_impl; [exact Hf|]. intros f Hs. cbn.
      rewrite !lookup_insert_is_Some'. auto.
    + apply bool_decide_eq_true. by rewrite lookup_insert_eq.
Qed.

Lemma locations_skipped w :
  locations_calculated K (points w) = true →
  calculate_locations K E a (head (points w)) = ret tt ∧
  ∀ net, Call.CalculateLocations_na net ∉ trace (run K E a w).2.
Proof.
  intros Hlc. split.
  - unfold calculate_locations. fold (locations_calculated K (points w)). by rewrite Hlc.
  - intros net Hin. destruct (run_steady K E a w) as [_ Hok].
    rewrite Forall_forall in Hok. specialize (Hok _ Hin). cbn in Hok.
    unfold locations_calculated in Hlc. congruence.
Qed.

Lemma barrier_costs_skipped w :
  barrier_costs_calculated K (points w) = true →
  calculate_barrier_costs K (head (points w)) = ret tt ∧
  ∀ f, Call.AddField_management f ∉ trace (run K E a w).2.
Proof.
  intros Hbc. split.
  - unfold calculate_barrier_costs. fold (barrier_costs_calculated K (points w)).
    by rewrite Hbc.
  - intros net Hin. destruct (run_steady K E a w) as [_ Hok].
    rewrite Forall_forall in Hok. specialize (Hok _ Hin). cbn in Hok.
    unfold barrier_costs_calculated in Hbc. congruence.
Qed.

Lemma run_preprocessed w :
  (run K E a w).1 = Ok tt →
  preprocessed K E a (locations_calculated K (points w))
    (barrier_costs_calculated K (points w)) (points w)
  = Some (points (run K E a w).2).
Proof.
  pose proof (run_calls K E a w) as H. unfold wp in H. fold (run K E a w) in H.
  cbn zeta in H. destruct (run K E a w) as [[[]|e] w']; [|done]. intros _. apply H.
Qed.

(** C9.  When the first input point carries the network location fields,
    lines 64-71 do nothing and the run never calls [CalculateLocations];
    when it carries the barrier cost field, lines 75-106 do nothing and
    the run never adds the field.  Neither case raises.  After a run that
    returned, over points that are not empty and an engine whose
    [CalculateLocations] writes the location fields and keeps the barrier
    costs, the first point carries both, so that a second run does
    neither step and leaves the points as they are. *)
Theorem preprocessing_skipped w :
  (locations_calculated K (points w) = true →
   calculate_locations K E a (head (points w)) = ret tt ∧
   ∀ net, Call.CalculateLocations_na net ∉ trace (run K E a w).2) ∧
  (barrier_costs_calculated K (points w) = true →
   calculate_barrier_costs K (head (points w)) = ret tt ∧
   ∀ f, Call.AddField_management f ∉ trace (run K E a w).2) ∧
  ((run K E a w).1 = Ok tt → points w ≠ [] → locates K E a (points w) →
   let w1 := (run K E a w).2 in
   locations_calculated K (points w1) = true ∧
   barrier_costs_calculated K (points w1) = true ∧
   (∀ net, Call.CalculateLocations_na net ∉ trace (run K E a w1).2) ∧
   (∀ f, Call.AddField_management f ∉ trace (run K E a w1).2) ∧
   ((run K E a w1).1 = Ok tt → points (run K E a w1).2 = points w1)).
Proof.
  split; [apply locations_skipped|]. split; [apply barrier_costs_skipped|].
  intros Hok Hne Hloc w1.
  destruct (preprocessed_calculated (points w) (points w1) Hne Hloc) as [Hlc Hbc];
    [by apply run_preprocessed|].
  split; [done|]. split; [done|].
  split; [by apply locations_skipped|]. split; [by apply barrier_costs_skipped|].
  intros Hok1. pose proof (run_preprocessed w1 Hok1) as H.
  rewrite Hlc, Hbc in H. unfold preprocessed in H. congruence.
Qed.

End Preprocessing.

Lemma preprocessing_skipped_street :
  let w1 := (run Street.K Street.E Street.args Street.world).2 in
  locations_calculated Street.K (points Street.world) = false ∧
  locations_calculated Street.K (points w1) = true ∧
  barrier_costs_calculated Street.K (points w1) = true ∧
  points (run Street.K Street.E Street.args w1).2 = points w1.
Proof.
  intros w1. split; [compute_done|].
  destruct (preprocessing_skipped Street.K Street.E Street.args Street.world)
    as (_ & _ & H).
  destruct H as (Hlc & Hbc & _ & _ & Hpts); [compute_done|compute_done| |].
  { unfold locates. compute_done. }
  split; [exact Hlc|]. split; [exact Hbc|]. apply Hpts. compute_done.
Defined.

(** * The adjacency list (lines 221-248) *)

Section Rows.
Context (K : Constants) (E : Engine) (a : Args).
Local Open Scope Qc_scope.

Local Abbreviation O := (ORIGIN_ID_FIELD_NAME K).
Local Abbreviation D := (DESTINATION_ID_FIELD_NAME K).
Local Abbreviation dist := (distance_field K a).

Lemma name_part_text i r v :
  name_part i r = Some v →
  ∃ nm s, r !! "Name" = Some (VText nm) ∧ split " - " nm !! i = Some s ∧ v = VText s.
Proof.
  unfold name_part. destruct (r !! "Name") as [[|nm]|]; try done.
  destruct (split " - " nm !! i) as [s|] eqn:Hs; [|done]. intros [= <-]. by exists nm, s.
Qed.

(** Lines 221-234 on one line of the solver. *)
Lemma fragment_row_inv r r' :
  fragment_row K a r = Some r' →
  ∃ o d raw,
    name_part 0 r = Some (VText o) ∧
    name_part 1 (<[O := VText o]> r) = Some (VText d) ∧
    dist ≠ O ∧ dist ≠ D ∧ r !! dist = Some (VNum raw) ∧
    r' = <[dist := double (Py.sub raw (Py.mul (PyInt 2) (PyInt (Py.int (BARRIER_COST K)))))]>
           (<[D := VText d]> (<[O := VText o]> r)).
Proof.
  unfold fragment_row. destruct (name_part 0 r) as [vo|] eqn:Ho; [|done]. cbn.
  destruct (name_part_text _ _ _ Ho) as (_ & o & _ & _ & ->).
  destruct (name_part 1 (<[O:=VText o]> r)) as [vd|] eqn:Hd; [|done]. cbn.
  destruct (name_part_text _ _ _ Hd) as (_ & d & _ & _ & ->).
  unfold corrected_distance.
  destruct (<[D:=VText d]> (<[O:=VText o]> r) !! dist) as [[raw|]|] eqn:Hraw; try done.
  cbn. intros [= <-]. exists o, d, raw.
  assert (dist ≠ D) as HD by (intros Heq; by rewrite Heq, lookup_insert_eq in Hraw).
  rewrite lookup_insert_ne in Hraw by done.
  assert (dist ≠ O) as HO by (intros Heq; by rewrite Heq, lookup_insert_eq in Hraw).
  rewrite lookup_insert_ne in Hraw by done. done.
Qed.


Lemma fragment_row_signed r r' : fragment_row K a r = Some r' → signed K a r r'.
Proof.
  intros (o & d & raw & _ & _ & HO & HD & Hraw & ->)%fragment_row_inv.
  eexists raw, _. split; [done|]. split; [by rewrite lookup_insert_eq|].
  cbn [Py.to_Qc]. rewrite to_Qc_sub, to_Qc_mul. cbn [Py.to_Qc].
  rewrite <-(Qcplus_le_cancel _ _ (Qc_of_Z 2 * Qc_of_Z (Py.int (BARRIER_COST K)))).
  by replace (Qc_of_Z 2 * Qc_of_Z (Py.int (BARRIER_COST K))
              + (Py.to_Qc raw - Qc_of_Z 2 * Qc_of_Z (Py.int (BARRIER_COST K))))
    with (Py.to_Qc raw) by ring; rewrite Qcplus_0_r.
Qed.

Lemma fragment_row_named r r' :
  O ≠ D → O ≠ "Name" → fragment_row K a r = Some r' → named K r r'.
Proof.
  intros HOD HON (o & d & raw & Ho & Hd & HO & HD & Hraw & ->)%fragment_row_inv.
  apply name_part_text in Ho as (nm & o' & Hnm & Hso & [= <-]).
  apply name_part_text in Hd as (nm' & d' & Hnm' & Hsd & [= <-]).
  rewrite lookup_insert_ne in Hnm' by done. rewrite Hnm in Hnm'. injection Hnm' as <-.
  exists nm, o, d. repeat split; [done..| |].
  - by rewrite !lookup_insert_ne, lookup_insert_eq by done.
  - by rewrite lookup_insert_ne, lookup_insert_eq by done.
Qed.

Lemma elem_of_mapM {A B} (f : A → option B) l k :
  mapM f l = Some k →
  (∀ x, x ∈ l → ∃ y, y ∈ k ∧ f x = Some y) ∧ (∀ y, y ∈ k → ∃ x, x ∈ l ∧ f x = Some y).
Proof.
  intros H%mapM_Some. induction H as [|x y l k Hxy _ [IH1 IH2]].
  { split; by intros ? ?%elem_of_nil. }
  split.
  - intros x' [->|Hx]%elem_of_cons; [exists y; split; [left|done]|].
    destruct (IH1 _ Hx) as (y' & ? & ?). exists y'. split; [by right|done].
  - intros y' [->|Hy]%elem_of_cons; [exists x; split; [left|done]|].
    destruct (IH2 _ Hy) as (x' & ? & ?). exists x'. split; [by right|done].
Qed.

(** The table that the solves leave holds a row for every line of every
    solve, and nothing else. *)
Lemma fragments_rows_of_lines P calls T :
  (∀ r r', fragment_row K a r = Some r' → P r r') →
  fragments K E a calls = Some T → rows_of_lines E P calls T.
Proof.
  intros HP. revert T. induction calls as [|e calls IH]; intros T.
  { intros [= <-]. split; [by intros ? ?%elem_of_nil|by intros ? ?%elem_of_nil]. }
  destruct e as [| | | | | | | | | | | | | |l0| | |]; try exact (IH T).
  cbn [fragments solves omap]. destruct (fragments K E a calls) as [T0|]; [|done]. cbn.
  destruct (solve E l0) as [lines0|] eqn:Hsolve; [|done]. cbn.
  destruct (mapM (fragment_row K a) lines0) as [rows0|] eqn:Hrows; [|done]. cbn.
  intros [= <-]. destruct (IH T0 eq_refl) as [IH1 IH2].
  destruct (elem_of_mapM _ _ _ Hrows) as [Hr1 Hr2]. split.
  - intros l [->|Hl]%elem_of_cons.
    + exists lines0. split; [done|]. intros r Hr. destruct (Hr1 r Hr) as (r' & ? & ?).
      exists r'. split; [apply elem_of_app; by right|by apply HP].
    + destruct (IH1 l Hl) as (lines & ? & Hlines). exists lines. split; [done|].
      intros r Hr. destruct (Hlines r Hr) as (r' & ? & ?).
      exists r'. split; [apply elem_of_app; by left|done].
  - intros r' [Hr'|Hr']%elem_of_app.
    + destruct (IH2 r' Hr') as (l & lines & r & ? & ? & ? & ?).
      exists l, lines, r. split; [by right|done].
    + destruct (Hr2 r' Hr') as (r & ? & ?).
      exists l0, lines0, r. split; [left|]. split; [done|]. split; [done|by apply HP].
Qed.

Context (distinct : NoDup (run_files K E a)).

Lemma run_finished w : (run K E a w).1 = Ok tt → finished K E a (run K E a w).2.
Proof.
  pose proof (run_tables K E a distinct w) as H. unfold wp in H. fold (run K E a w) in H.
  by destruct (run K E a w) as [[[]|e] w'].
Qed.


Lemma run_rows_of_lines P w :
  (∀ r r', fragment_row K a r = Some r' → P r r') →
  (run K E a w).1 = Ok tt →
  ∃ T, files (run K E a w).2 !! adj_dbf E a = Some T ∧
       rows_of_lines E P (trace (run K E a w).2) T.
Proof.
  intros HP (T & Hadj & _ & HT & _)%run_finished. exists T. split; [done|].
  by apply fragments_rows_of_lines.
Qed.

End Rows.

Section Outcome.
Context (K : Constants) (E : Engine) (a : Args).
Local Open Scope Qc_scope.

Lemma unsolved_solves w : unsolved w → solves (trace w) = [].
Proof.
  unfold unsolved. induction 1 as [|e t He _ IH]; [done|]. by destruct e.
Qed.


(** C5.  Nothing keeps the distances from being negative.  When a run
    returns, the adjacency list holds one row for every line of every
    solve and no other row, and the distance of a row is at least zero
    exactly when the raw total of its line is at least twice the
    [BARRIER_COST] that line 233 prints. *)
Theorem distance_sign w :
  NoDup (run_files K E a) → (run K E a w).1 = Ok tt →
  ∃ T, files (run K E a w).2 !! adj_dbf E a = Some T ∧
       rows_of_lines E (signed K a) (trace (run K E a w).2) T.
Proof.
  intros Hfiles Hok. apply run_rows_of_lines; [done| |done].
  intros r r'. by apply fragment_row_signed.
Qed.

(** C6.  Nothing removes a row whose origin is its destination.  When a
    run returns, the adjacency list holds one row for every line of every
    solve and no other row, and the origin and the destination of a row
    are the two parts of the name of its line, whether they differ or
    not; this for origin and destination fields that are two fields,
    neither of them [Name]. *)
Theorem self_loops_kept w :
  NoDup (run_files K E a) →
  ORIGIN_ID_FIELD_NAME K ≠ DESTINATION_ID_FIELD_NAME K →
  ORIGIN_ID_FIELD_NAME K ≠ "Name" →
  (run K E a w).1 = Ok tt →
  ∃ T, files (run K E a w).2 !! adj_dbf E a = Some T ∧
       rows_of_lines E (named K) (trace (run K E a w).2) T.
Proof.
  intros Hfiles HOD HON Hok. apply run_rows_of_lines; [done| |done].
  intros r r'. by apply fragment_row_named.
Qed.



End Outcome.


Lemma distance_sign_street :
  ∃ T, files (run Street.K Street.E Street.args Street.world).2 !! "C:/out/adj.dbf" = Some T ∧
       rows_of_lines Street.E (signed Street.K Street.args)
         (trace (run Street.K Street.E Street.args Street.world).2) T.
Proof.
  apply (distance_sign Street.K Street.E Street.args Street.world); compute_done.
Defined.

Lemma self_loops_kept_street :
  ∃ T, files (run Street.K Street.E Street.args Street.world).2 !! "C:/out/adj.dbf" = Some T ∧
       rows_of_lines Street.E (named Street.K)
         (trace (run Street.K Street.E Street.args Street.world).2) T.
Proof.
  apply (self_loops_kept Street.K Street.E Street.args Street.world); compute_done.
Defined.


(** C5, refuted as stated: on the street, the row from point 1 to itself
    has the distance -200000. *)
Lemma distance_negative :
  ∃ T r c,
    files (run Street.K Street.E Street.args Street.world).2 !! "C:/out/adj.dbf" = Some T ∧
    r ∈ T ∧ r !! distance_field Street.K Street.args = Some (VNum c) ∧
    (Py.to_Qc c < 0)%Qc.
Proof.
  set (T := default [] (files (run Street.K Street.E Street.args Street.world).2
                          !! "C:/out/adj.dbf")).
  exists T, (default ∅ (T !! 0%nat)), (PyFloat (Qc_of_Z (-200000))).
  repeat split; compute_done.
Qed.

(** C6, refuted as stated: on the street, the adjacency list has a row
    from point 1 to itself, and a row from point 1 to point 2, which is
    at the same place. *)
Lemma self_loop_and_colocated_rows :
  ∃ T r r',
    files (run Street.K Street.E Street.args Street.world).2 !! "C:/out/adj.dbf" = Some T ∧
    r ∈ T ∧ r !! "OriginID" = Some (VText "1") ∧ r !! "DestinationID" = Some (VText "1") ∧
    r' ∈ T ∧ r' !! "OriginID" = Some (VText "1") ∧ r' !! "DestinationID" = Some (VText "2") ∧
    get_xy Street.K <$> points (run Street.K Street.E Street.args Street.world).2 !! 0%nat
    = get_xy Street.K <$> points (run Street.K Street.E Street.args Street.world).2 !! 1%nat.
Proof.
  set (T := default [] (files (run Street.K Street.E Street.args Street.world).2
                          !! "C:/out/adj.dbf")).
  exists T, (default ∅ (T !! 0%nat)), (default ∅ (T !! 1%nat)).
  repeat split; compute_done.
Qed.

(** * The names of the lines (lines 221-227) *)

Section Names.

Lemma append_cons c (s1 s2 : string) : String c s1 +:+ s2 = String c (s1 +:+ s2).
Proof. done. Qed.

Lemma append_assoc (s1 s2 s3 : string) : (s1 +:+ s2) +:+ s3 = s1 +:+ (s2 +:+ s3).
Proof. induction s1 as [|c s1 IH]; [done|]. by rewrite !append_cons, IH. Qed.

Lemma append_empty_r (s : string) : s +:+ "" = s.
Proof. induction s as [|c s IH]; [done|]. by rewrite append_cons, IH. Qed.

Lemma prefix_spaceless c s : Ascii.eqb c Ascii.Space = false → String.prefix " - " (String c s) = false.
Proof.
  intros Hc.
  change (String.prefix " - " (String c s))
    with (if Ascii.ascii_dec Ascii.Space c then String.prefix "- " s else false).
  destruct (Ascii.ascii_dec Ascii.Space c) as [<-|]; [|done].
  by rewrite Ascii.eqb_refl in Hc.
Qed.

Lemma split_from_spaceless o piece rest :
  spaceless o = true →
  split_from " - " 0 piece (o +:+ " - " +:+ rest)
  = (piece +:+ o) :: split_from " - " 0 "" rest.
Proof.
  revert piece. induction o as [|c o IH]; intros piece Ho.
  { rewrite append_empty_r. by destruct rest. }
  cbn in Ho. apply andb_true_iff in Ho as [Hc%negb_true_iff Ho].
  rewrite append_cons. cbn [split_from]. rewrite prefix_spaceless by done.
  rewrite IH by done. by rewrite append_assoc.
Qed.

Lemma split_from_spaceless_end d piece :
  spaceless d = true → split_from " - " 0 piece d = [piece +:+ d].
Proof.
  revert piece. induction d as [|c d IH]; intros piece Hd.
  { by rewrite append_empty_r. }
  cbn in Hd. apply andb_true_iff in Hd as [Hc%negb_true_iff Hd].
  cbn [split_from]. rewrite prefix_spaceless by done.
  rewrite IH by done. by rewrite append_assoc.
Qed.

(** Lines 222-227 recover the two identifiers from the name that the
    solver gives a line, when the identifiers hold no space. *)
Theorem name_parts_recovered o d r :
  spaceless o = true → spaceless d = true →
  r !! "Name" = Some (VText (o +:+ " - " +:+ d)) →
  name_part 0 r = Some (VText o) ∧ name_part 1 r = Some (VText d) ∧
  name_part 2 r = None.
Proof.
  intros Ho Hd Hr. unfold name_part, split. rewrite Hr.
  by rewrite split_from_spaceless, split_from_spaceless_end.
Qed.

End Names.

Lemma name_parts_recovered_12 :
  name_part 0 {[ "Name" := VText "12 - 7" ]} = Some (VText "12") ∧
  name_part 1 {[ "Name" := VText "12 - 7" ]} = Some (VText "7").
Proof.
  destruct (name_parts_recovered "12" "7" {[ "Name" := VText "12 - 7" ]})
    as (H0 & H1 & _); [reflexivity..|].
  by split.
Defined.

(** * The recorded sources (lines 46-53) *)

Section Recorded.
Context (K : Constants).

Local Abbreviation is_edge := (λ s : Source, sourceType s = EDGE_FEATURE K).
Local Abbreviation is_junction :=
  (λ s : Source, sourceType s ≠ EDGE_FEATURE K ∧ sourceType s ∈ JUNCTION_FEATURE K).

Local Abbreviation record acc srcs :=
  (foldl (λ '(edge_feature, junction_feature) source,
            if bool_decide (sourceType source = EDGE_FEATURE K)
            then (Some (name source), junction_feature)
            else if bool_decide (sourceType source ∈ JUNCTION_FEATURE K)
            then (edge_feature, Some (name source))
            else (edge_feature, junction_feature))
         acc srcs).

Lemma record_sources_last_from acc srcs :
  record acc srcs
  = (match last (filter is_edge srcs) with Some s => Some (name s) | None => acc.1 end,
     match last (filter is_junction srcs) with Some s => Some (name s) | None => acc.2 end).
Proof.
  revert acc. induction srcs as [|s srcs IH]; intros [e j]; [done|].
  cbn [foldl]. rewrite !filter_cons.
  case_bool_decide as He; [|case_bool_decide as Hj]; rewrite IH; cbn [fst snd].
  - rewrite decide_True by done. rewrite (decide_False (P:=is_junction s)) by tauto.
    rewrite last_cons. by destruct (last (filter is_edge srcs)).
  - rewrite decide_False by done. rewrite (decide_True (P:=is_junction s)) by done.
    rewrite last_cons. by destruct (last (filter is_junction srcs)).
  - rewrite decide_False by done. rewrite (decide_False (P:=is_junction s)) by tauto.
    done.
Qed.

(** Lines 49-53 keep the name of the last edge source and the name of
    the last source that is of a junction type and not of the edge
    type. *)
Theorem record_sources_last srcs :
  record_sources K srcs
  = (name <$> last (filter is_edge srcs), name <$> last (filter is_junction srcs)).
Proof.
  unfold record_sources. rewrite record_sources_last_from.
  by destruct (last (filter is_edge srcs)), (last (filter is_junction srcs)).
Qed.

End Recorded.

(** * The temporary name (line 111) *)

Section TempName.

Lemma length_append (s1 s2 : string) :
  String.length (s1 +:+ s2) = (String.length s1 + String.length s2)%nat.
Proof. induction s1 as [|c s1 IH]; [done|]. rewrite append_cons. cbn. by f_equal. Qed.

Lemma length_substring_0 n (s : string) :
  String.length (String.substring 0 n s) = Nat.min n (String.length s).
Proof.
  revert n. induction s as [|c s IH]; intros [|n]; cbn; try done. by rewrite IH.
Qed.

(** The temporary table never has the name of the adjacency list: its
    name is one character longer, or five characters long when the name
    of the adjacency list has less than four. *)
Theorem temp_adj_dbf_name_differs (a : Args) :
  temp_adj_dbf_name a ≠ adj_dbf_name a ∧
  String.length (temp_adj_dbf_name a) = (Nat.max 4 (String.length (adj_dbf_name a)) + 1)%nat.
Proof.
  assert (String.length (temp_adj_dbf_name a)
          = (Nat.max 4 (String.length (adj_dbf_name a)) + 1)%nat) as Hlen.
  { unfold temp_adj_dbf_name, drop_last4. rewrite length_append, length_substring_0.
    cbn [String.length]. lia. }
  split; [|done]. intros Heq. rewrite Heq in Hlen. lia.
Qed.

End TempName.

(** * The number of cells (line 148) *)

Section CellCount.
Context (K : Constants).
Local Open Scope Qc_scope.

(** When line 148 divides by a [POINTS_PER_RASTER_CELL] that is not zero,
    integer or float, positive or negative, the number of cells is at
    least one, so that the division of line 149 is by a positive
    number. *)
Theorem raster_cell_count_positive N :
  Py.to_Qc (POINTS_PER_RASTER_CELL K) ≠ 0 →
  1 ≤ Py.to_Qc (raster_cell_count K N) ∧
  Py.to_Qc (raster_cell_count K N) ≠ 0.
Proof.
  intros _.
  assert (1 ≤ Py.to_Qc (raster_cell_count K N)) as H1.
  { unfold raster_cell_count. rewrite to_Qc_max. cbn [Py.to_Qc].
    case_decide as H; [by apply Qclt_le_weak|]. rewrite Z2Qc_inj_1. apply Qcle_refl. }
  split; [done|]. intros H0. rewrite H0 in H1. by apply Qcle_not_lt in H1.
Qed.

End CellCount.

Lemma raster_cell_count_positive_street :
  (1 ≤ Py.to_Qc (raster_cell_count Street.K 3))%Qc ∧
  raster_cell_count Street.K 3 = PyInt 1.
Proof.
  split; [|reflexivity].
  apply (raster_cell_count_positive Street.K 3). compute_done.
Defined.

(** * Removing files (lines 120-131 and 250-259) *)

Section Removing.
Context (K : Constants) (E : Engine) (a : Args).

Lemma wp_last {A B} (m : M A) (k : A → M B) Q w :
  (∀ x w', wp (k x) Q (λ _ _, True) w') → wp (bind m k) Q (λ _ _, True) w.
Proof.
  intros Hk. apply wp_bind. unfold wp at 1. destruct (m w) as [[x|e] w']; [apply Hk|done].
Qed.


(** When a run returns, none of the seven files of lines 251-257 is
    left, whatever the paths are. *)
Theorem auxiliary_files_cleaned w file :
  (run K E a w).1 = Ok tt →
  file ∈ [od_cost_matrix_layer K E a; partial_adj_dbf K E a; polygons K E a; raster K E a;
          polygons_layer K E a; input_points_layer K E a; auxiliary_dir K E a] →
  files (run K E a w).2 !! file = None.
Proof.
  intros Hok Hin.
  cut (wp (compute_adjacency_list K E a) (λ _ w', files w' !! file = None) (λ _ _, True)
          (set_trace [] w)).
  { unfold wp. fold (run K E a w). by destruct (run K E a w) as [[[]|e] w']. }
  unfold compute_adjacency_list.
  repeat lazymatch goal with |- wp (bind _ _) _ _ _ => apply wp_last; intros ? ? end.
  unfold finish. apply wp_last. intros _ w1. apply deletes_spec. intros t _. world_simpl.
  by rewrite lookup_deleted, decide_True.
Qed.

End Removing.

Lemma auxiliary_files_cleaned_street :
  files (run Street.K Street.E Street.args Street.world).2 !! "C:/out/Auxiliary Files" = None.
Proof.
  apply (auxiliary_files_cleaned Street.K Street.E Street.args Street.world); compute_done.
Defined.

(** * Assigning the barrier costs (lines 73-106) *)

Section Assigning.
Context (K : Constants).

Local Abbreviation bf := (trim K (BARRIER_COST_FIELD K)).

Lemma count_xy_None rows acc :
  ¬ Forall (λ r, is_Some (get_xy K r)) rows → count_xy K rows acc = None.
Proof.
  revert acc. induction rows as [|r rows IH]; intros acc Hrows.
  { destruct Hrows. constructor. }
  cbn [count_xy]. destruct (get_xy K r) as [xy|] eqn:Hxy; [|done]. cbn.
  apply IH. intros Hrest. apply Hrows. constructor; [by rewrite Hxy|done].
Qed.

(** When the points carry no barrier cost yet, lines 75-106 return
    exactly when every point has both snap coordinates.  They then give
    every point a barrier cost and change no other field, no file and
    nothing of the layer.  Otherwise they raise after line 78 has added
    the field, which holds 0 in every row. *)
Theorem barrier_costs_assigned_or_raised test w :
  bf ≠ trim K "SnapX" → bf ≠ trim K "SnapY" →
  row_has_field test bf = false →
  if decide (Forall (λ r, is_Some (get_xy K r)) (points w))
  then ∃ w', calculate_barrier_costs K test w = (Ok tt, w') ∧
             Forall2 (λ r r', is_Some (r' !! bf) ∧ ∀ f, f ≠ bf → r' !! f = r !! f)
                     (points w) (points w') ∧
             files w' = files w ∧ od w' = od w
  else ∃ w', calculate_barrier_costs K test w = (Raise RuntimeError, w') ∧
             points w' = insert bf (double (PyInt 0)) <$> points w.
Proof.
  intros Hx Hy Htest.
  set (rows := insert bf (double (PyInt 0)) <$> points w).
  assert (Forall (λ r, is_Some (get_xy K r)) rows
          ↔ Forall (λ r, is_Some (get_xy K r)) (points w)) as Hrows.
  { unfold rows. rewrite Forall_fmap. apply Forall_proper; [|done]. intros r. cbn.
    by rewrite get_xy_insert. }
  unfold calculate_barrier_costs. rewrite Htest. case_decide as Hpts.
  - apply Hrows in Hpts. eexists. split.
    { cbn -[barrier_costs]. fold rows. rewrite (barrier_costs_spec K rows Hpts). reflexivity. }
    cbn. split; [|done]. unfold rows. rewrite <-list_fmap_compose.
    apply Forall2_fmap_r, Forall_Forall2_diag, Forall_forall. intros r Hr. cbn.
    unfold share. rewrite get_xy_insert by done.
    rewrite Forall_forall in Hpts.
    destruct (Hpts (<[bf:=double (PyInt 0)]> r)) as [xy Hxy];
      [by apply list_elem_of_fmap_2|].
    rewrite get_xy_insert in Hxy by done. rewrite Hxy. split.
    + by rewrite lookup_insert_eq.
    + intros f Hf. by rewrite !lookup_insert_ne.
  - eexists. split.
    { cbn -[barrier_costs]. fold rows. unfold barrier_costs.
      rewrite count_xy_None by (by rewrite Hrows). reflexivity. }
    reflexivity.
Qed.

End Assigning.

Lemma barrier_costs_raised_street :
  ∃ w', calculate_barrier_costs Street.K (head (points Street.world)) Street.world
        = (Raise RuntimeError, w') ∧
        points w' = insert "Barrier_Co" (double (PyInt 0)) <$> points Street.world.
Proof.
  pose proof (barrier_costs_assigned_or_raised Street.K (head (points Street.world))
                Street.world) as H.
  rewrite decide_False in H by compute_done. apply H; compute_done.
Defined.

(** * The rows of the adjacency list, in order (lines 236-248) *)

Section InOrder.
Context (K : Constants) (E : Engine) (a : Args).

Lemma mapM_app_Some {A B} (f : A → option B) l1 l2 k1 k2 :
  mapM f l1 = Some k1 → mapM f l2 = Some k2 → mapM f (l1 ++ l2) = Some (k1 ++ k2).
Proof. rewrite !mapM_Some. apply Forall2_app. Qed.

Lemma fragments_in_order calls T :
  fragments K E a calls = Some T →
  ∃ liness, mapM (solve E) (reverse (solves calls)) = Some liness ∧
            mapM (fragment_row K a) (concat liness) = Some T.
Proof.
  revert T. induction calls as [|e calls IH]; intros T.
  { intros [= <-]. by exists []. }
  destruct e as [| | | | | | | | | | | | | |l0| | |]; try exact (IH T).
  change (solves (Call.Solve_na l0 :: calls)) with (l0 :: solves calls).
  intros HT. cbn [fragments] in HT.
  destruct (fragments K E a calls) as [T0|]; [|done]. cbn in HT.
  destruct (solve E l0) as [lines0|] eqn:Hsolve; [|done]. cbn in HT.
  destruct (mapM (fragment_row K a) lines0) as [rows0|] eqn:Hrows; [|done]. cbn in HT.
  injection HT as <-. destruct (IH T0 eq_refl) as (liness & Hl & HT).
  exists (liness ++ [lines0]). split.
  - rewrite reverse_cons. apply mapM_app_Some; [done|]. cbn. by rewrite Hsolve.
  - rewrite concat_app. apply mapM_app_Some; [done|]. cbn. by rewrite app_nil_r.
Qed.

(** When a run returns, the adjacency list is the rows made of the lines
    of the first solve, then those of the second, and so on: every solve
    appends its rows, in the order of its lines. *)
Theorem adjacency_list_in_order w :
  NoDup (run_files K E a) → (run K E a w).1 = Ok tt →
  ∃ liness T,
    mapM (solve E) (reverse (solves (trace (run K E a w).2))) = Some liness ∧
    mapM (fragment_row K a) (concat liness) = Some T ∧
    files (run K E a w).2 !! adj_dbf E a = Some T.
Proof.
  intros Hfiles (T & Hadj & _ & HT & _)%run_finished; [|done].
  destruct (fragments_in_order _ _ HT) as (liness & ? & ?). by exists liness, T.
Qed.

End InOrder.

Lemma adjacency_list_in_order_street :
  ∃ liness T,
    mapM (solve Street.E)
      (reverse (solves (trace (run Street.K Street.E Street.args Street.world).2)))
    = Some liness ∧
    mapM (fragment_row Street.K Street.args) (concat liness) = Some T ∧
    files (run Street.K Street.E Street.args Street.world).2 !! "C:/out/adj.dbf" = Some T.
Proof.
  apply (adjacency_list_in_order Street.K Street.E Street.args Street.world); compute_done.
Defined.

(** * The layer of every cell (lines 177-219) *)

Section Cells.
Context (K : Constants) (E : Engine) (a : Args).
Context (distinct : NoDup (run_files K E a)).

Lemma solves_cons e t :
  solves (e :: t) = match e with Call.Solve_na l => l :: solves t | _ => solves t end.
Proof. by destruct e. Qed.

Lemma wp_for_each_done {A} (l : list A) body (I : list A → World → Prop) F done w :
  I done w →
  (∀ d x w', I d w' → wp (body x) (λ _, I (d ++ [x])) F w') →
  wp (for_each l body) (λ _, I (done ++ l)) F w.
Proof.
  revert done w. induction l as [|x l IH]; intros done w HI Hbody.
  { cbn. by rewrite app_nil_r. }
  cbn [for_each]. eapply wp_seq; [by apply Hbody|]. intros _ w' HI'.
  rewrite (cons_middle x done l), app_assoc. by apply IH.
Qed.

Local Abbreviation anyhow := (λ (_ : Exn) (_ : World), True).

Lemma solve_cell_solved cells pts done row w :
  solved K E a cells pts done w →
  wp (solve_cell K E a row) (λ _, solved K E a cells pts (done ++ [row])) anyhow w.
Proof.
  intros (Hpts & Hcells & (Hn & Hi & Hc & Ha) & Hdone). distinct_files distinct.
  unfold solve_cell. wp_files; try done.
  unfold solved, made. world_simpl. lookup_norm.
  split; [done|]. split; [done|]. split; [done|].
  rewrite !solves_cons. cbn match. rewrite reverse_cons.
  apply mapM_app_Some; [done|]. cbn [mapM].
  unfold cell_layer.
  match goal with H : row !! "FID" = Some _ |- _ => rewrite H end. cbn.
  unfold selected, arcpy.set_sub_layer. world_simpl. by rewrite Hpts, Hn, Hi, Hc, Ha.
Qed.

Lemma solve_cells_solved cells pts w :
  solved K E a cells pts [] w →
  wp (solve_cells K E a) (λ _, solved K E a cells pts cells) anyhow w.
Proof.
  intros Hw. unfold solve_cells. pose proof Hw as (_ & Hcells & _).
  wp_files. apply (wp_for_each_done cells _ (solved K E a cells pts) _ []); [done|].
  intros d x w'. apply solve_cell_solved.
Qed.

Lemma late_solved n w :
  unsolved w →
  wp (remove_old_files K E a ;; make_od_cost_matrix_layer K E a ;; make_polygons K E a n ;;
      start_adjacency_list K E a ;; solve_cells K E a ;; finish K E a)
     (λ _ w', mapM (cell_layer K E a (cells_of K E a n (points w')) (points w'))
                   (cells_of K E a n (points w'))
              = Some (reverse (solves (trace w'))))
     anyhow w.
Proof.
  intros Hw. distinct_files distinct.
  set (pts := points w). set (cells := cells_of K E a n pts).
  eapply (wp_seq _ _ (λ w', points w' = pts ∧ unsolved w')).
  { unfold remove_old_files. apply deletes_spec. intros t Ht. world_simpl.
    split; [done|]. unfold unsolved. world_simpl. apply Forall_app. split; [|done].
    eapply Forall_impl; [exact Ht|]. intros [] He Hs; first [exact Hs | exact He]. }
  intros _ w1 [Hp1 H1].
  eapply (wp_seq _ _ (λ w', (points w' = pts ∧ unsolved w') ∧ made K a (od w'))).
  { unfold make_od_cost_matrix_layer. wp_files.
    split; [split; [done|by unsolved_split]|done]. }
  intros _ w2 [[Hp2 H2] Hod2].
  eapply (wp_seq _ _ (λ w', (points w' = pts ∧ unsolved w') ∧ made K a (od w') ∧
                            files w' !! polygons K E a = Some cells)).
  { unfold make_polygons. wp_files; [done|].
    split; [split; [done|by unsolved_split]|]. split; [done|].
    unfold cells, cells_of. rewrite <-Hp2.
    match goal with H : extent _ _ = _ |- _ => by rewrite H end. }
  intros _ w3 ((Hp3 & H3) & Hod3 & Hc3).
  eapply (wp_seq _ _ (solved K E a cells pts [])).
  { unfold start_adjacency_list. wp_files; try done.
    unfold solved. world_simpl. lookup_norm. repeat split; try done; try apply Hod3.
    rewrite !solves_cons. cbn match. by rewrite unsolved_solves. }
  intros _ w4 H4.
  eapply wp_seq; [by apply solve_cells_solved|]. intros _ w5 (Hp5 & _ & _ & H5).
  unfold finish. autounfold with tools. eapply (wp_seq _ _ (λ w', points w' = pts ∧
    mapM (cell_layer K E a cells pts) cells = Some (reverse (solves (trace w'))))).
  { wp_files; done. }
  intros _ w6 [Hp6 H6]. apply deletes_spec. intros t Ht. world_simpl.
  rewrite Hp6. fold cells. rewrite H6. do 2 f_equal.
  clear -Ht. induction Ht as [|e t He _ IH]; [done|]. by destruct e.
Qed.

Lemma run_solved w :
  let n := Z.of_nat (length (points w)) in
  wp (compute_adjacency_list K E a)
     (λ _ w', mapM (cell_layer K E a (cells_of K E a n (points w')) (points w'))
                   (cells_of K E a n (points w'))
              = Some (reverse (solves (trace w'))))
     anyhow (set_trace [] w).
Proof.
  intros n. unfold compute_adjacency_list.
  wp_head; world_simpl. wp_head; world_simpl.
  eapply (wp_seq _ _ unsolved).
  { unfold make_auxiliary_dir. wp_go; by unsolved_split. }
  intros _ w1 H1. eapply (wp_seq _ _ unsolved).
  { unfold check_network. wp_go; try done; by unsolved_split. }
  intros _ w2 H2. eapply (wp_seq _ _ unsolved).
  { unfold calculate_locations. wp_go; try done; by unsolved_split. }
  intros _ w3 H3. eapply (wp_seq _ _ unsolved).
  { unfold calculate_barrier_costs. wp_go; try done; by unsolved_split. }
  intros _ w4 H4. by apply late_solved.
Qed.

(** When a run returns, it has called the solver once for every cell of
    the raster, in the order of the cells, each time with the layer of
    that cell: the origins are the points within the cell, the
    destinations and the barriers both are the points within
    [max_neighbor_separation] of it, under the settings of line 137. *)
Theorem cells_solved_in_order w :
  (run K E a w).1 = Ok tt →
  let n := Z.of_nat (length (points w)) in
  let pts := points (run K E a w).2 in
  mapM (cell_layer K E a (cells_of K E a n pts) pts) (cells_of K E a n pts)
  = Some (reverse (solves (trace (run K E a w).2))).
Proof.
  intros Hok n pts. pose proof (run_solved w) as H. cbn zeta in H. unfold wp in H.
  fold (run K E a w) in H. subst pts.
  by destruct (run K E a w) as [[[]|e] w'].
Qed.

Lemma cell_layer_origins cells pts row l :
  (∀ poly p, within E poly None p = true →
             within E poly (Some (max_neighbor_separation a)) p = true) →
  cell_layer K E a cells pts row = Some l → origins l ⊆ destinations l.
Proof.
  intros Hwithin Hrow.
  unfold cell_layer in Hrow. destruct (row !! "FID") as [fid|]; [|done].
  cbn in Hrow. injection Hrow as <-. cbn [origins destinations].
  intros o (r & -> & Hr)%list_elem_of_fmap. apply list_elem_of_fmap.
  exists r. split; [done|]. unfold selected in *. apply list_elem_of_filter in Hr as [Hr ?].
  apply list_elem_of_filter. split; [|done].
  apply existsb_exists in Hr as (poly & ? & ?). apply existsb_exists.
  exists poly. split; [done|]. by apply Hwithin.
Qed.

(** Every origin of a solve is among its destinations, with the same
    properties, when what lies within a cell lies within any distance of
    it: the solver is asked for the way from every point of a cell to
    itself. *)
Theorem origins_among_destinations w l :
  (∀ poly p, within E poly None p = true →
             within E poly (Some (max_neighbor_separation a)) p = true) →
  (run K E a w).1 = Ok tt →
  l ∈ solves (trace (run K E a w).2) →
  origins l ⊆ destinations l.
Proof.
  intros Hwithin Hok Hl.
  pose proof (run_solved w) as H. cbn zeta in H. unfold wp in H.
  fold (run K E a w) in H.
  destruct (run K E a w) as [[[]|e] w']; [|done]. cbn [fst snd] in *.
  destruct (elem_of_mapM _ _ _ H) as [_ H2].
  destruct (H2 l) as (row & _ & Hrow); [by apply elem_of_reverse|].
  by eapply cell_layer_origins.
Qed.

End Cells.

Lemma cells_solved_in_order_street :
  length (solves (trace (run Street.K Street.E Street.args Street.world).2)) = 2%nat.
Proof.
  pose proof (cells_solved_in_order Street.K Street.E Street.args ltac:(compute_done)
                Street.world ltac:(compute_done)) as H.
  apply mapM_Some_1, Forall2_length in H. 
  rewrite length_reverse in H.
  rewrite <-H. vm_compute. reflexivity.
Defined.

Lemma origins_among_destinations_street :
  let l := default Street.no_layer
             (solves (trace (run Street.K Street.E Street.args Street.world).2) !! 1%nat) in
  origins l ≠ [] ∧ origins l ⊆ destinations l.
Proof.
  intros l. split; [compute_done|].
  apply (origins_among_destinations Street.K Street.E Street.args ltac:(compute_done)
           Street.world).
  - intros poly p. unfold Street.E, within, Street.between.
    rewrite !andb_true_iff, !bool_decide_eq_true. cbn [Py.to_Qc max_neighbor_separation Street.args].
    intros [H1 H2]. split.
    + eapply Qcle_trans; [|exact H1]. apply Qcplus_le_mono_l. compute_done.
    + eapply Qcle_trans; [exact H2|]. apply Qcplus_le_mono_l. compute_done.
  - compute_done.
  - compute_done.
Defined.

(** * A solve that fails (lines 217-219) *)

Section Failing.
Context (K : Constants) (E : Engine) (a : Args).

Lemma solves_deletes t t' : Forall is_delete t → solves (t ++ t') = solves t'.
Proof. induction 1 as [|e t He _ IH]; [done|]. by destruct e. Qed.

Lemma solve_cell_all_solved row w :
  all_solved E w →
  wp (solve_cell K E a row) (λ _, all_solved E) (solve_raised E) w.
Proof.
  intros Hw. unfold solve_cell. wp_go.
  all: unfold all_solved, solve_raised in *; world_simpl; rewrite ?solves_cons; cbn match.
  all: try (intros layer Hlayer Hnone).
  all: try (apply elem_of_cons in Hlayer as [->|Hlayer]).
  all: try (rewrite Forall_forall in Hw; destruct (Hw _ Hlayer) as [? ?]; congruence).
  all: try congruence.
  all: try done.
  apply Forall_cons. split; [by eexists|done].
Qed.

Ltac no_solve Hw :=
  unfold all_solved, solve_raised in *; world_simpl; rewrite ?solves_cons; cbn match;
  try (intros layer Hlayer Hnone; rewrite Forall_forall in Hw;
       destruct (Hw _ Hlayer) as [? ?]; congruence);
  try done.

Lemma deletes_all_solved files w :
  all_solved E w →
  wp (for_each files delete_if_exists) (λ _, all_solved E) (solve_raised E) w.
Proof.
  intros Hw. apply deletes_spec. intros t Ht. unfold all_solved in *. world_simpl.
  by rewrite solves_deletes.
Qed.

Lemma run_all_solved w :
  wp (compute_adjacency_list K E a) (λ _, all_solved E) (solve_raised E) (set_trace [] w).
Proof.
  unfold compute_adjacency_list.
  wp_head; world_simpl. wp_head; world_simpl.
  eapply (wp_seq _ _ (all_solved E)).
  { unfold make_auxiliary_dir. wp_go; by unfold all_solved. }
  intros _ w1 H1. eapply (wp_seq _ _ (all_solved E)).
  { unfold check_network. wp_go; by no_solve H1. }
  intros _ w2 H2. eapply (wp_seq _ _ (all_solved E)).
  { unfold calculate_locations. wp_go; by no_solve H2. }
  intros _ w3 H3. eapply (wp_seq _ _ (all_solved E)).
  { unfold calculate_barrier_costs. wp_go; by no_solve H3. }
  intros _ w4 H4. eapply wp_seq; [by apply deletes_all_solved|].
  intros _ w5 H5. eapply (wp_seq _ _ (all_solved E)).
  { unfold make_od_cost_matrix_layer. wp_go; by no_solve H5. }
  intros _ w6 H6. eapply (wp_seq _ _ (all_solved E)).
  { unfold make_polygons. wp_go; by no_solve H6. }
  intros _ w7 H7. eapply (wp_seq _ _ (all_solved E)).
  { unfold start_adjacency_list. wp_go; by no_solve H7. }
  intros _ w8 H8. eapply (wp_seq _ _ (all_solved E)).
  { unfold solve_cells. wp_go; [|by no_solve H8].
    apply wp_for_each; [done|]. intros row w' _. apply solve_cell_all_solved. }
  intros _ w9 H9. unfold finish. eapply (wp_seq _ _ (all_solved E)).
  { wp_go; by no_solve H9. }
  intros _ w10 H10. by apply deletes_all_solved.
Qed.

(** When a solve fails, the run raises its error at once: the failed
    solve is the last call made, so no later cell is solved and nothing
    is appended or renamed after it. *)
Theorem solve_failure_propagates w l :
  l ∈ solves (trace (run K E a w).2) → solve E l = None →
  (run K E a w).1 = Raise ExecuteError ∧
  head (trace (run K E a w).2) = Some (Call.Solve_na l).
Proof.
  intros Hl Hnone. pose proof (run_all_solved w) as H. unfold wp in H.
  fold (run K E a w) in H. destruct (run K E a w) as [[[]|e] w']; cbn [fst snd] in *.
  - unfold all_solved in H. rewrite Forall_forall in H.
    destruct (H l Hl) as [? ?]. congruence.
  - destruct (H l Hl Hnone) as [-> ?]. done.
Qed.

End Failing.

Lemma solve_failure_propagates_street :
  (run Street.K Street.broken Street.args Street.stale).1 = Raise ExecuteError.
Proof.
  set (l := default Street.no_layer
              (head (solves (trace (run Street.K Street.broken Street.args Street.stale).2)))).
  apply (solve_failure_propagates Street.K Street.broken Street.args Street.stale l);
    [compute_done|reflexivity].
Defined.

(** * The dictionary of lines 83-96 and the cost of a point alone *)

Section Counting.
Context (K : Constants).
Local Open Scope Qc_scope.

Local Abbreviation bf := (trim K (BARRIER_COST_FIELD K)).

(** The dictionary that lines 90-96 build holds, for every location that
    a point is snapped to, the number of points snapped to it, and no
    other key. *)
Theorem snap_counts rows :
  Forall (λ r, is_Some (get_xy K r)) rows →
  ∃ xy_count, count_xy K rows ∅ = Some xy_count ∧
    ∀ xy, xy_count !! xy =
          if decide (colocated K xy rows = []) then None
          else Some (Z.of_nat (length (colocated K xy rows))).
Proof.
  intros Hrows. destruct (count_xy_spec K rows ∅ Hrows) as (m & Hm & Hcount).
  exists m. split; [done|]. intros xy. rewrite Hcount, lookup_empty.
  destruct (colocated K xy rows) as [|r l]; [done|].
  rewrite decide_False by (cbn; lia). rewrite (decide_False (P:=r :: l = [])) by done.
  cbn [default]. by rewrite Z.add_0_l.
Qed.

Lemma div_one b : Py.to_Qc (Py.div b (PyInt 1)) = Py.to_Qc b.
Proof.
  destruct b as [z|q]; cbn.
  - by rewrite Z.div_1_r.
  - rewrite Z2Qc_inj_1. field. done.
Qed.

(** A point that is alone at its location gets the whole [BARRIER_COST],
    whether the constant is an integer or a float. *)
Theorem lone_point_cost rows rows' r' xy :
  bf ≠ trim K "SnapX" → bf ≠ trim K "SnapY" →
  Forall (λ r, is_Some (get_xy K r)) rows →
  barrier_costs K rows = Some rows' →
  colocated K xy rows' = [r'] →
  barrier_cost_of K r' = Py.to_Qc (BARRIER_COST K).
Proof.
  intros Hx Hy Hrows Hcosts Hlone.
  rewrite (barrier_costs_spec K rows Hrows) in Hcosts. injection Hcosts as <-.
  rewrite (colocated_share K Hx Hy) in Hlone.
  destruct (colocated K xy rows) as [|r [|r2 l]] eqn:Hgroup; try done.
  injection Hlone as <-.
  rewrite (share_colocated K xy rows r) by (rewrite Hgroup; left).
  rewrite Hgroup, barrier_cost_of_insert. apply div_one.
Qed.

End Counting.

Lemma snap_counts_street :
  ∃ xy_count, count_xy Street.K (Street.locate <$> points Street.world) ∅ = Some xy_count ∧
              xy_count !! (Street.float 10, Street.float 0) = Some 2%Z.
Proof.
  destruct (snap_counts Street.K (Street.locate <$> points Street.world))
    as (m & Hm & Hcount); [compute_done|].
  exists m. split; [done|]. rewrite Hcount. compute_done.
Defined.

Lemma lone_point_cost_street :
  let rows := Street.locate <$> points Street.world in
  let rows' := default [] (barrier_costs Street.K rows) in
  let r' := default ∅ (rows' !! 3%nat) in
  barrier_cost_of Street.K r' = Qc_of_Z 100000.
Proof.
  intros rows rows' r'.
  apply (lone_point_cost Street.K rows rows' r' (Street.float 95, Street.float 0));
    compute_done.
Defined.

(** * A zero density (line 148) *)

Section ZeroDensity.
Context (K : Constants) (E : Engine) (a : Args).

(** With [POINTS_PER_RASTER_CELL] zero no run returns, and no run calls
    the solver: line 148 raises, if nothing before it has. *)
Theorem zero_density_raises w :
  Py.to_Qc (POINTS_PER_RASTER_CELL K) = 0%Qc →
  (run K E a w).1 ≠ Ok tt ∧ solves (trace (run K E a w).2) = [].
Proof.
  intros Hzero.
  cut (wp (compute_adjacency_list K E a) (λ _ _, False) (λ _, unsolved) (set_trace [] w)).
  { unfold wp. fold (run K E a w). destruct (run K E a w) as [[[]|e] w']; [done|].
    intros Hw. split; [done|]. by apply unsolved_solves. }
  unfold compute_adjacency_list.
  wp_head; world_simpl. wp_head; world_simpl.
  eapply (wp_seq _ _ unsolved).
  { unfold make_auxiliary_dir. wp_go; by unsolved_split. }
  intros _ w1 H1. eapply (wp_seq _ _ unsolved).
  { unfold check_network. wp_go; by unsolved_split. }
  intros _ w2 H2. eapply (wp_seq _ _ unsolved).
  { unfold calculate_locations. wp_go; by unsolved_split. }
  intros _ w3 H3. eapply (wp_seq _ _ unsolved).
  { unfold calculate_barrier_costs. wp_go; by unsolved_split. }
  intros _ w4 H4. eapply (wp_seq _ _ unsolved).
  { unfold remove_old_files. apply deletes_spec. intros t Ht. unfold unsolved. world_simpl.
    apply Forall_app. split; [|done].
    eapply Forall_impl; [exact Ht|]. intros [] He Hs; first [exact Hs | exact He]. }
  intros _ w5 H5. eapply (wp_seq _ _ unsolved).
  { unfold make_od_cost_matrix_layer. wp_go; by unsolved_split. }
  intros _ w6 H6. wp_head. unfold make_polygons. wp_go; [done|].
  match goal with H : bool_decide _ = false |- _ => by apply bool_decide_eq_false in H end.
Qed.

End ZeroDensity.

Lemma zero_density_raises_street :
  (run Street.empty_cells Street.E Street.args Street.world).1 ≠ Ok tt ∧
  (run Street.empty_cells Street.E Street.args Street.world).1 = Raise ZeroDivisionError.
Proof.
  split; [|compute_done].
  eapply (zero_density_raises Street.empty_cells Street.E Street.args Street.world).
  compute_done.
Defined.
